(** * Weather Dashboard: forecast reduction, search orchestration,
      search history, demo data, tile addressing and the proxy endpoints.

    A shallow embedding of [script.js] (class [WeatherDashboard]) and of
    the route handlers of [server.js].

    Conventions of the embedding.
    - A JavaScript Number that carries a measurement (temperature,
      humidity, wind speed, a random draw) is modelled by its mathematical
      value, a rational [Q]; the trigonometric tile formulas live in [R].
      IEEE-754 rounding of intermediate results is not part of the model.
    - Unix seconds and time values (milliseconds) are integers [Z].
    - A [Date] object is its time value, or [None] for an Invalid Date.
    - A promise is modelled by its settled outcome; [await] of a rejected
      promise is a thrown exception ([Throw]).
    - The page is assumed to contain the containers the display functions
      look up; a panel of the model holds the value last rendered in it. *)

From Stdlib Require Import Ascii ZArith QArith Qround Qminmax Reals Lia Lqa Lra.
From stdpp Require Import base option list strings gmap sorting.

Local Open Scope Z_scope.

(** ** Numbers *)

Module JSMath.

(** [Math.round]: the closest integer, ties towards +Infinity. *)
Definition round (x : Q) : Z := Qfloor (x + (1 # 2))%Q.

(** [Math.floor]. *)
Definition floor (x : Q) : Z := Qfloor x.

End JSMath.

(** ** Dates *)

Module JSDate.

Definition msPerDay : Z := 86400000.

(** Largest magnitude of a valid time value (ECMAScript TimeClip). *)
Definition maxTimeValue : Z := 8640000000000000.

(** A Date object: [Some tv] with its time value, [None] when invalid. *)
Definition Date : Type := option Z.

(** [new Date(tv)] for a numeric argument. *)
Definition newDate (tv : Z) : Date :=
  if decide (Z.abs tv <= maxTimeValue) then Some tv else None.

(** [a > b] on Dates: numeric comparison of the time values, false as soon
    as one side is NaN. *)
Definition gt (a b : Date) : bool :=
  match a, b with
  | Some x, Some y => bool_decide (y < x)
  | _, _ => false
  end.

(** [a <= b] on Dates. *)
Definition le (a b : Date) : bool :=
  match a, b with
  | Some x, Some y => bool_decide (x <= y)
  | _, _ => false
  end.

(** What [toDateString] yields.  The string of a valid date spells the
    weekday, month, day of month and year of the local civil day; these
    determine the local day number and are determined by it, and the model
    keeps that number in place of the text. *)
Inductive DateString : Type :=
| InvalidDate
| CivilDay (day : Z).

#[global] Instance DateString_eq_dec : EqDecision DateString.
Proof. solve_decision. Defined.

Definition DateString_to_option (s : DateString) : option Z :=
  match s with InvalidDate => None | CivilDay d => Some d end.

Definition DateString_of_option (o : option Z) : DateString :=
  match o with None => InvalidDate | Some d => CivilDay d end.

#[global] Instance DateString_countable : Countable DateString.
Proof.
  refine (inj_countable' DateString_to_option DateString_of_option _).
  intros []; reflexivity.
Defined.

Section LocalTime.
(** Offset of local time from UTC, in milliseconds, at a UTC instant (the
    host's time zone, daylight saving included). *)
Variable LocalTZA : Z -> Z.

Definition toDateString (d : Date) : DateString :=
  match d with
  | None => InvalidDate
  | Some tv => CivilDay ((tv + LocalTZA tv) / msPerDay)
  end.

End LocalTime.

End JSDate.

Import JSDate.

(** ** Exceptions and promises *)

Record Error : Type := { message : string }.

(** Completion of a computation, and the settled state of a promise. *)
Inductive Outcome (A : Type) : Type :=
| Normal (a : A)
| Throw (e : Error).
Arguments Normal {A} a.
Arguments Throw {A} e.

#[global] Instance Outcome_ret : MRet Outcome := fun A a => Normal a.

#[global] Instance Outcome_bind : MBind Outcome := fun A B f m =>
  match m with
  | Normal a => f a
  | Throw e => Throw e
  end.

(** [a || b] where [a] is a string or [undefined]: the empty string is
    falsy. *)
Definition orString (a : option string) (b : string) : string :=
  match a with
  | Some s => if decide (s = "") then b else s
  | None => b
  end.

(** ** Upstream payloads *)

Record Main : Type := { temp : Q; humidity : Q }.

Record Weather : Type :=
  { weather_main : string; description : string; icon : string }.

Record Wind : Type := { speed : Q }.

Record Coord : Type := { lat : Q; lon : Q }.

(** One element of [data.list].  [weather0] is [item.weather[0]], the only
    element of the array that is read. *)
Record ForecastItem : Type :=
  { dt : Z; main : Main; weather0 : Weather; wind : Wind }.

Record ForecastData : Type := { list_ : list ForecastItem }.

Record CurrentWeather : Type :=
  { cw_name : string; cw_main : Main; cw_weather0 : Weather; cw_wind : Wind;
    cw_coord : option Coord }.

Record AirQualityData : Type :=
  { aq_city : string; aq_coordinates : Coord; aqi : Z;
    pm2_5 : Q; pm10 : Q; no2 : Q }.

Record Alert : Type :=
  { event : string; alert_description : string; alert_end : Z }.

Record AlertsData : Type := { alerts : list Alert }.

(** ** Derived entries *)

Record DailyForecast : Type :=
  { df_date : Date; df_temp : Z; df_description : string;
    df_humidity : Q; df_windSpeed : Z; df_icon : string }.

Record HourlyForecast : Type :=
  { hf_time : Date; hf_temp : Z; hf_description : string;
    hf_icon : string; hf_humidity : Q; hf_windSpeed : Z }.

(** ** Weather icon mapping *)

Definition iconMap : gmap string string :=
  list_to_map
    [ ("Clear", "☀️"); ("Clouds", "☁️"); ("Rain", "🌧️"); ("Snow", "❄️");
      ("Thunderstorm", "⛈️"); ("Drizzle", "🌦️"); ("Mist", "🌫️");
      ("Fog", "🌫️"); ("Haze", "🌫️"); ("Smoke", "🌫️"); ("Dust", "🌫️");
      ("Sand", "🌫️"); ("Ash", "🌫️"); ("Squall", "💨"); ("Tornado", "🌪️") ].

(** [iconMap[weatherMain] || default]; every glyph of the table is a
    non-empty string, hence truthy. *)
Definition getWeatherIcon (weatherMain : string) : string :=
  default "🌤️" (iconMap !! weatherMain).

(** ** Forecast reducer *)

Section ForecastReducer.
Variable LocalTZA : Z -> Z.

Definition itemDate (item : ForecastItem) : Date := newDate (dt item * 1000).

Definition dayKeyOf (item : ForecastItem) : DateString :=
  toDateString LocalTZA (itemDate item).

(** The object literal pushed by [processForecastData]. *)
Definition dailyOf (item : ForecastItem) : DailyForecast :=
  {| df_date := itemDate item;
     df_temp := JSMath.round (temp (main item));
     df_description := description (weather0 item);
     df_humidity := humidity (main item);
     df_windSpeed := JSMath.round (speed (wind item) * (18 # 5))%Q;
     df_icon := icon (weather0 item) |}.

(** One turn of the [forEach] of [processForecastData] on the loop state
    ([dailyForecasts], [processedDays]). *)
Definition forecastStep (st : list DailyForecast * gset DateString)
    (item : ForecastItem) : list DailyForecast * gset DateString :=
  let '(dailyForecasts, processedDays) := st in
  let dayKey := dayKeyOf item in
  if decide (dayKey ∈ processedDays) then st
  else (dailyForecasts ++ [dailyOf item], {[dayKey]} ∪ processedDays).

Definition processForecastData (data : ForecastData) : list DailyForecast :=
  let '(dailyForecasts, _) := fold_left forecastStep (list_ data) ([], ∅) in
  take 5 dailyForecasts.

(** The samples that open a calendar day outside [seen], in order: what
    the loop of [processForecastData] is shown to select. *)
Fixpoint firstOfEachDay (seen : gset DateString) (l : list ForecastItem)
    : list ForecastItem :=
  match l with
  | [] => []
  | item :: rest =>
      if decide (dayKeyOf item ∈ seen) then firstOfEachDay seen rest
      else item :: firstOfEachDay ({[dayKeyOf item]} ∪ seen) rest
  end.

(** The object literal pushed by [processHourlyData]. *)
Definition hourlyOf (item : ForecastItem) : HourlyForecast :=
  {| hf_time := itemDate item;
     hf_temp := JSMath.round (temp (main item));
     hf_description := description (weather0 item);
     hf_icon := getWeatherIcon (weather_main (weather0 item));
     hf_humidity := humidity (main item);
     hf_windSpeed := JSMath.round (speed (wind item) * (18 # 5))%Q |}.

(** The guard of the loop of [processHourlyData]; [now] is the time value
    of [new Date()]. *)
Definition inNext24h (now : Z) (item : ForecastItem) : bool :=
  gt (itemDate item) (Some now)
  && le (itemDate item) (newDate (now + 24 * 60 * 60 * 1000)).

Definition hourlyStep (now : Z) (hourlyData : list HourlyForecast)
    (item : ForecastItem) : list HourlyForecast :=
  if inNext24h now item then hourlyData ++ [hourlyOf item] else hourlyData.

Definition processHourlyData (now : Z) (data : ForecastData)
    : list HourlyForecast :=
  take 24 (fold_left (hourlyStep now) (list_ data) []).

End ForecastReducer.

(** ** The dashboard object and the page *)

Inductive Panel (A : Type) : Type :=
| Untouched
| LoadingPanel
| ErrorPanel (msg : string)
| Showing (a : A).
Arguments Untouched {A}.
Arguments LoadingPanel {A}.
Arguments ErrorPanel {A} msg.
Arguments Showing {A} a.

(** The requests the page sends to its own server. *)
Inductive Request : Type :=
| GetWeather (city : string)
| GetForecast (city : string)
| GetAirQuality (city : string)
| GetAlerts (city : string).

(** Fields of [WeatherDashboard] with the panels of the page,
    [localStorage.weatherSearchHistory] and the log of requests sent. *)
Record Dashboard : Type :=
  { searchHistory : list string;
    currentCity : string;
    storedHistory : option (list string);
    currentPanel : Panel CurrentWeather;
    forecastPanel : Panel (list DailyForecast);
    hourlyPanel : Panel (list HourlyForecast);
    airQualityPanel : Panel (option AirQualityData);
    alertsPanel : Panel AlertsData;
    historyPanel : list string;
    requests : list Request }.

(** The constructor: history from [localStorage], or [[]]. *)
Definition newDashboard (stored : option (list string)) : Dashboard :=
  {| searchHistory := default [] stored;
     currentCity := "";
     storedHistory := stored;
     currentPanel := Untouched;
     forecastPanel := Untouched;
     hourlyPanel := Untouched;
     airQualityPanel := Untouched;
     alertsPanel := Untouched;
     historyPanel := default [] stored;
     requests := [] |}.

(** Computations on the dashboard that may throw; the state reached when
    the exception is thrown is kept. *)
Definition Eff (A : Type) : Type := Dashboard -> Outcome A * Dashboard.

#[global] Instance Eff_ret : MRet Eff := fun A a s => (Normal a, s).

#[global] Instance Eff_bind : MBind Eff := fun A B f m s =>
  match m s with
  | (Normal a, s') => f a s'
  | (Throw e, s') => (Throw e, s')
  end.

Definition throw {A : Type} (e : Error) : Eff A := fun s => (Throw e, s).

(** [await] of an already settled promise. *)
Definition await {A : Type} (p : Outcome A) : Eff A := fun s => (p, s).

Definition tryCatch {A : Type} (body : Eff A) (handler : Error -> Eff A) : Eff A :=
  fun s =>
    match body s with
    | (Normal a, s') => (Normal a, s')
    | (Throw e, s') => handler e s'
    end.

Definition modify (f : Dashboard -> Dashboard) : Eff unit :=
  fun s => (Normal tt, f s).

(** The body of a failed response of the page's server, as far as it is
    read: [errorData.message]. *)
Record ErrorData : Type := { ed_message : option string }.

(** A response: [response.ok] and what [response.json()] settles to. *)
Inductive Response (A : Type) : Type :=
| ResponseOk (json : Outcome A)
| ResponseNotOk (json : Outcome ErrorData).
Arguments ResponseOk {A} json.
Arguments ResponseNotOk {A} json.

(** What the network answers to the five requests of one search, in the
    order they are awaited. *)
Record Network : Type :=
  { weatherFetch : Outcome (Response CurrentWeather);
    forecastFetch : Outcome (Response ForecastData);
    hourlyFetch : Outcome (Response ForecastData);
    airQualityFetch : Outcome (Response AirQualityData);
    alertsFetch : Outcome (Response AlertsData) }.

Definition logRequest (req : Request) (s : Dashboard) : Dashboard :=
  {| searchHistory := searchHistory s; currentCity := currentCity s;
     storedHistory := storedHistory s; currentPanel := currentPanel s;
     forecastPanel := forecastPanel s; hourlyPanel := hourlyPanel s;
     airQualityPanel := airQualityPanel s; alertsPanel := alertsPanel s;
     historyPanel := historyPanel s;
     requests := requests s ++ [req] |}.

(** [await fetch(url)]: the request is sent, then the promise settles. *)
Definition fetch {A : Type} (req : Request) (p : Outcome (Response A))
    : Eff (Response A) :=
  _ ← modify (logRequest req);
  await p.

(** The value of a fetch that was fulfilled with an ok response whose
    body parsed, if it was. *)
Definition settledJson {A : Type} (p : Outcome (Response A)) : option A :=
  match p with
  | Normal (ResponseOk (Normal a)) => Some a
  | _ => None
  end.

Definition showLoading : Eff unit :=
  modify (fun s =>
    {| searchHistory := searchHistory s; currentCity := currentCity s;
       storedHistory := storedHistory s; currentPanel := LoadingPanel;
       forecastPanel := LoadingPanel; hourlyPanel := hourlyPanel s;
       airQualityPanel := airQualityPanel s; alertsPanel := alertsPanel s;
       historyPanel := historyPanel s; requests := requests s |}).

Definition showError (msg : string) : Eff unit :=
  modify (fun s =>
    {| searchHistory := searchHistory s; currentCity := currentCity s;
       storedHistory := storedHistory s; currentPanel := ErrorPanel msg;
       forecastPanel := ErrorPanel msg; hourlyPanel := hourlyPanel s;
       airQualityPanel := airQualityPanel s; alertsPanel := alertsPanel s;
       historyPanel := historyPanel s; requests := requests s |}).

Definition displayCurrentWeather (weatherData : CurrentWeather) : Eff unit :=
  modify (fun s =>
    {| searchHistory := searchHistory s; currentCity := currentCity s;
       storedHistory := storedHistory s; currentPanel := Showing weatherData;
       forecastPanel := forecastPanel s; hourlyPanel := hourlyPanel s;
       airQualityPanel := airQualityPanel s; alertsPanel := alertsPanel s;
       historyPanel := historyPanel s; requests := requests s |}).

Definition displayForecast (forecastData : list DailyForecast) : Eff unit :=
  modify (fun s =>
    {| searchHistory := searchHistory s; currentCity := currentCity s;
       storedHistory := storedHistory s; currentPanel := currentPanel s;
       forecastPanel := Showing forecastData; hourlyPanel := hourlyPanel s;
       airQualityPanel := airQualityPanel s; alertsPanel := alertsPanel s;
       historyPanel := historyPanel s; requests := requests s |}).

Definition displayHourlyForecast (hourlyData : list HourlyForecast) : Eff unit :=
  modify (fun s =>
    {| searchHistory := searchHistory s; currentCity := currentCity s;
       storedHistory := storedHistory s; currentPanel := currentPanel s;
       forecastPanel := forecastPanel s; hourlyPanel := Showing hourlyData;
       airQualityPanel := airQualityPanel s; alertsPanel := alertsPanel s;
       historyPanel := historyPanel s; requests := requests s |}).

Definition displayAirQuality (airQualityData : option AirQualityData) : Eff unit :=
  modify (fun s =>
    {| searchHistory := searchHistory s; currentCity := currentCity s;
       storedHistory := storedHistory s; currentPanel := currentPanel s;
       forecastPanel := forecastPanel s; hourlyPanel := hourlyPanel s;
       airQualityPanel := Showing airQualityData; alertsPanel := alertsPanel s;
       historyPanel := historyPanel s; requests := requests s |}).

Definition displayAlerts (alertsData : AlertsData) : Eff unit :=
  modify (fun s =>
    {| searchHistory := searchHistory s; currentCity := currentCity s;
       storedHistory := storedHistory s; currentPanel := currentPanel s;
       forecastPanel := forecastPanel s; hourlyPanel := hourlyPanel s;
       airQualityPanel := airQualityPanel s; alertsPanel := Showing alertsData;
       historyPanel := historyPanel s; requests := requests s |}).

Definition setCurrentCity (city : string) : Eff unit :=
  modify (fun s =>
    {| searchHistory := searchHistory s; currentCity := city;
       storedHistory := storedHistory s; currentPanel := currentPanel s;
       forecastPanel := forecastPanel s; hourlyPanel := hourlyPanel s;
       airQualityPanel := airQualityPanel s; alertsPanel := alertsPanel s;
       historyPanel := historyPanel s; requests := requests s |}).

(** ** Search history *)

Section SearchHistory.
(** [String.prototype.toLowerCase]. *)
Variable toLowerCase : string -> string.

(** The array operations of [addToSearchHistory]: [filter], [unshift],
    and [slice(0, 10)] when the length exceeds 10. *)
Definition addCity (history : list string) (city : string) : list string :=
  let filtered :=
    filter (fun item => toLowerCase item ≠ toLowerCase city) history in
  let unshifted := city :: filtered in
  if decide (10 < length unshifted)%nat then take 10 unshifted else unshifted.

(** The invariant of the recency list: at most 10 entries, no two of
    them equal once lower-cased. *)
Definition historyInvariant (history : list string) : Prop :=
  (length history ≤ 10)%nat ∧ NoDup (toLowerCase <$> history).

(** [addToSearchHistory]: the new array is assigned to the field, saved
    to [localStorage] and rendered by [displaySearchHistory]. *)
Definition addToSearchHistory (city : string) : Eff unit :=
  modify (fun s =>
    let h := addCity (searchHistory s) city in
    {| searchHistory := h; currentCity := currentCity s;
       storedHistory := Some h; currentPanel := currentPanel s;
       forecastPanel := forecastPanel s; hourlyPanel := hourlyPanel s;
       airQualityPanel := airQualityPanel s; alertsPanel := alertsPanel s;
       historyPanel := h; requests := requests s |}).

End SearchHistory.

(** ** Fetching the facets and the search *)

Section Search.
Variable LocalTZA : Z -> Z.
Variable toLowerCase : string -> string.

Definition fetchCurrentWeather (net : Network) (city : string)
    : Eff CurrentWeather :=
  response ← fetch (GetWeather city) (weatherFetch net);
  match response with
  | ResponseNotOk json =>
      errorData ← await json;
      throw {| message :=
        orString (ed_message errorData) ("City not found: " ++ city) |}
  | ResponseOk json => await json
  end.

Definition fetchForecast (net : Network) (city : string)
    : Eff (list DailyForecast) :=
  response ← fetch (GetForecast city) (forecastFetch net);
  match response with
  | ResponseNotOk json =>
      errorData ← await json;
      throw {| message :=
        orString (ed_message errorData) ("Forecast not found for: " ++ city) |}
  | ResponseOk json =>
      data ← await json;
      mret (processForecastData LocalTZA data)
  end.

(** [now] is the clock reading taken by [processHourlyData]. *)
Definition fetchHourlyForecast (now : Z) (net : Network) (city : string)
    : Eff (list HourlyForecast) :=
  returned ← tryCatch
    (response ← fetch (GetForecast city) (hourlyFetch net);
     match response with
     | ResponseOk json =>
         data ← await json;
         mret (Some (processHourlyData now data))
     | ResponseNotOk _ => mret None
     end)
    (fun error => mret None);
  mret (default [] returned).

Definition fetchAirQuality (net : Network) (city : string)
    : Eff (option AirQualityData) :=
  returned ← tryCatch
    (response ← fetch (GetAirQuality city) (airQualityFetch net);
     match response with
     | ResponseOk json =>
         data ← await json;
         mret (Some data)
     | ResponseNotOk _ => mret None
     end)
    (fun error => mret None);
  mret returned.

Definition fetchAlerts (net : Network) (city : string) : Eff AlertsData :=
  returned ← tryCatch
    (response ← fetch (GetAlerts city) (alertsFetch net);
     match response with
     | ResponseOk json =>
         data ← await json;
         mret (Some data)
     | ResponseNotOk _ => mret None
     end)
    (fun error => mret None);
  mret (default {| alerts := [] |} returned).

(** The [try] block of [searchWeather].  [displayWeatherMaps] only assigns
    the sources of two images and catches every error of its own; the map
    images are not part of the state. *)
Definition searchWeatherTry (now : Z) (net : Network) (city : string)
    : Eff unit :=
  _ ← showLoading;
  currentWeather ← fetchCurrentWeather net city;
  forecast ← fetchForecast net city;
  hourlyForecast ← fetchHourlyForecast now net city;
  airQuality ← fetchAirQuality net city;
  alertsData ← fetchAlerts net city;
  _ ← displayCurrentWeather currentWeather;
  _ ← displayForecast forecast;
  _ ← displayHourlyForecast hourlyForecast;
  _ ← displayAirQuality airQuality;
  _ ← displayAlerts alertsData;
  _ ← addToSearchHistory toLowerCase city;
  setCurrentCity city.

Definition searchWeather (now : Z) (net : Network) (city : string)
    : Eff unit :=
  tryCatch (searchWeatherTry now net city)
    (fun error =>
       showError (orString (Some (message error))
                    "Failed to fetch weather data. Please try again.")).

End Search.

(** ** Demo mode *)

(** How often the clock and the random source have been read. *)
Record World : Type := { clockReads : nat; randomDraws : nat }.

Definition Gen (A : Type) : Type := World -> A * World.

#[global] Instance Gen_ret : MRet Gen := fun A a w => (a, w).

#[global] Instance Gen_bind : MBind Gen := fun A B f m w =>
  let '(a, w') := m w in f a w'.

(** An entry of [sampleHourly]; [None] stands for [undefined], the value
    of an array read outside its bounds. *)
Record SampleHourly : Type :=
  { sh_time : Date; sh_temp : Z; sh_description : option string;
    sh_icon : option string; sh_humidity : Z; sh_windSpeed : Z }.

(** [arr[k]] for an integer-valued index. *)
Definition arrayGet {A : Type} (arr : list A) (k : Z) : option A :=
  if decide (k < 0) then None else arr !! Z.to_nat k.

Section DemoMode.
(** Value of the k-th call of [Date.now()] and of [Math.random()]. *)
Variable Date_now : nat -> Z.
Variable Math_random : nat -> Q.

Definition dateNow : Gen Z := fun w =>
  (Date_now (clockReads w),
   {| clockReads := S (clockReads w); randomDraws := randomDraws w |}).

Definition mathRandom : Gen Q := fun w =>
  (Math_random (randomDraws w),
   {| clockReads := clockReads w; randomDraws := S (randomDraws w) |}).

(** The object literal pushed in the loop of [enableDemoMode]; its
    properties are evaluated in source order. *)
Definition sampleHourlyEntry (i : Z) : Gen SampleHourly :=
  now ← dateNow;
  r1 ← mathRandom;
  r2 ← mathRandom;
  r3 ← mathRandom;
  r4 ← mathRandom;
  r5 ← mathRandom;
  mret {| sh_time := newDate (now + i * 60 * 60 * 1000);
          sh_temp := JSMath.floor (r1 * 10)%Q + 15;
          sh_description :=
            arrayGet ["Sunny"; "Cloudy"; "Partly cloudy"]
                     (JSMath.floor (r2 * 3)%Q);
          sh_icon := arrayGet ["☀️"; "☁️"; "⛅"] (JSMath.floor (r3 * 3)%Q);
          sh_humidity := JSMath.floor (r4 * 30)%Q + 50;
          sh_windSpeed := JSMath.floor (r5 * 15)%Q + 5 |}.

(** [for (let i = ...; ...; i++)] with [iterations] turns left. *)
Fixpoint sampleHourlyLoop (iterations : nat) (i : Z)
    (sampleHourly : list SampleHourly) : Gen (list SampleHourly) :=
  match iterations with
  | O => mret sampleHourly
  | S n =>
      entry ← sampleHourlyEntry i;
      sampleHourlyLoop n (i + 1) (sampleHourly ++ [entry])
  end.

(** The ranges the comments of the demo data announce. *)
Definition entryInRange (e : SampleHourly) : Prop :=
  15 ≤ sh_temp e ≤ 24 ∧ 50 ≤ sh_humidity e ≤ 79 ∧ 5 ≤ sh_windSpeed e ≤ 19.

(** A time value that is a clock reading plus 1 to 24 whole hours. *)
Definition hourAfterClock (t : Z) : Prop :=
  ∃ k h, 1 ≤ h ≤ 24 ∧ t = Date_now k + h * (60 * 60 * 1000).

(** [sampleHourly] as [enableDemoMode] builds it: i = 1, ..., 24. *)
Definition demoSampleHourly : Gen (list SampleHourly) :=
  sampleHourlyLoop 24 1 [].

End DemoMode.

(** ** Tile coordinates *)

Module TileMapper.







End TileMapper.

(** ** The proxy server *)

Module Server.

(** The body of an upstream response: it cannot be read at all, or it is
    a text with, when the text is JSON, the value it parses to. *)
Inductive UpstreamBody (A : Type) : Type :=
| Unreadable (e : Error)
| Body (text : string) (parsed : option A).
Arguments Unreadable {A} e.
Arguments Body {A} text parsed.

Record UpstreamResponse (A : Type) : Type :=
  { status : Z; body : UpstreamBody A }.
Arguments status {A} _.
Arguments body {A} _.

(** [response.ok]. *)
Definition ok {A : Type} (response : UpstreamResponse A) : bool :=
  bool_decide (200 <= status response <= 299).

Definition readText {A : Type} (response : UpstreamResponse A) : Outcome string :=
  match body response with
  | Unreadable e => Throw e
  | Body text _ => Normal text
  end.

Definition readJson {A : Type} (response : UpstreamResponse A) : Outcome A :=
  match body response with
  | Unreadable e => Throw e
  | Body _ (Some a) => Normal a
  | Body _ None => Throw {| message := "Unexpected token in JSON" |}
  end.

(** An upstream request that failed: the fetch was rejected, or answered
    with a non-success status, or with a body that cannot be read as
    JSON. *)
Definition upstreamFailed {A : Type} (upstream : Outcome (UpstreamResponse A))
    : Prop :=
  match upstream with
  | Throw _ => True
  | Normal response => ok response = false ∨ ∃ e, readJson response = Throw e
  end.

Record ErrorBody : Type := { error : string; error_message : string }.

(** What a handler sends: the status and the JSON body. *)
Record Reply (B : Type) : Type := { code : Z; sent : ErrorBody + B }.
Arguments code {B} _.
Arguments sent {B} _.

(** [process.env.OPENWEATHER_API_KEY] is truthy. *)
Definition hasApiKey (apiKey : option string) : bool :=
  match apiKey with
  | Some k => bool_decide (k ≠ "")
  | None => false
  end.

(** The middleware [checkApiKey]; [next] is the rest of the route. *)
Definition checkApiKey {B : Type} (apiKey : option string) (next : Reply B)
    : Reply B :=
  if hasApiKey apiKey then next
  else {| code := 500;
          sent := inl {| error := "API key not configured";
                         error_message :=
                           "OpenWeatherMap API key is not set on the server" |} |}.

(** A handler body inside [try], and its [catch] clause. *)
Definition tryOr {B : Type} (body : Outcome (Reply B)) (handler : Error -> Reply B)
    : Reply B :=
  match body with
  | Normal reply => reply
  | Throw e => handler e
  end.

(** The routes are modelled from [checkApiKey] on; the rate limiter and
    the other middleware registered before them are not. *)

(** [GET /api/weather/:city]; [upstream] is what the fetch settles to. *)
Definition weatherHandler {A : Type} (city : string)
    (upstream : Outcome (UpstreamResponse A)) : Reply A :=
  tryOr
    (response ← upstream;
     if negb (ok response) then
       errorText ← readText response;
       mret {| code := 404;
               sent := inl {| error := "City not found";
                              error_message :=
                                "Could not find weather data for " ++ city |} |}
     else
       data ← readJson response;
       mret {| code := 200; sent := inr data |})
    (fun _ =>
       {| code := 500;
          sent := inl {| error := "Internal server error";
                         error_message := "Failed to fetch weather data" |} |}).

Definition weatherRoute {A : Type} (apiKey : option string) (city : string)
    (upstream : Outcome (UpstreamResponse A)) : Reply A :=
  checkApiKey apiKey (weatherHandler city upstream).

(** An element of the geocoding answer. *)
Record GeoItem : Type :=
  { g_name : string; g_lat : Q; g_lon : Q; g_country : string;
    g_state : option string }.

Record Suggestion : Type :=
  { s_name : string; s_country : string; s_state : option string;
    displayName : string }.

Definition suggestionOf (item : GeoItem) : Suggestion :=
  {| s_name := g_name item;
     s_country := g_country item;
     s_state := g_state item;
     displayName :=
       match g_state item with
       | Some st =>
           if decide (st = "") then g_name item ++ ", " ++ g_country item
           else g_name item ++ ", " ++ st ++ ", " ++ g_country item
       | None => g_name item ++ ", " ++ g_country item
       end |}.

(** [GET /api/suggestions/:query]. *)
Definition suggestionsHandler (query : string)
    (upstream : Outcome (UpstreamResponse (list GeoItem)))
    : Reply (list Suggestion) :=
  tryOr
    (if decide (String.length query < 2)%nat then
       mret {| code := 200; sent := inr [] |}
     else
       response ← upstream;
       if negb (ok response) then mret {| code := 200; sent := inr [] |}
       else
         data ← readJson response;
         mret {| code := 200; sent := inr (suggestionOf <$> data) |})
    (fun _ => {| code := 200; sent := inr [] |}).

Definition suggestionsRoute (apiKey : option string) (query : string)
    (upstream : Outcome (UpstreamResponse (list GeoItem)))
    : Reply (list Suggestion) :=
  checkApiKey apiKey (suggestionsHandler query upstream).

(** The One Call answer as far as it is read: [alertsData.alerts]. *)
Record OneCall : Type := { oc_alerts : option (list Alert) }.

Record AlertsBody : Type :=
  { ab_city : string; ab_alerts : list Alert;
    ab_note : option string; ab_error : option string }.

Definition cityNotFound (city : string) : Reply AlertsBody :=
  {| code := 404;
     sent := inl {| error := "City not found";
                    error_message := "Could not find coordinates for " ++ city |} |}.

(** [GET /api/alerts/:city]; [geo] is what the geocoding fetch settles
    to and [oneCall lat lon] what the alerts fetch for these coordinates
    settles to. *)
Definition alertsHandler (city : string)
    (geo : Outcome (UpstreamResponse (list GeoItem)))
    (oneCall : Q -> Q -> Outcome (UpstreamResponse OneCall))
    : Reply AlertsBody :=
  tryOr
    (geoResponse ← geo;
     if negb (ok geoResponse) then mret (cityNotFound city)
     else
       geoData ← readJson geoResponse;
       match geoData with
       | [] => mret (cityNotFound city)
       | first :: _ =>
           alertsResponse ← oneCall (g_lat first) (g_lon first);
           if negb (ok alertsResponse) then
             mret {| code := 200;
                     sent := inr {| ab_city := city; ab_alerts := [];
                                    ab_note := Some
                                      "Weather alerts require One Call API 3.0 subscription";
                                    ab_error := None |} |}
           else
             alertsData ← readJson alertsResponse;
             mret {| code := 200;
                     sent := inr {| ab_city := city;
                                    ab_alerts := default [] (oc_alerts alertsData);
                                    ab_note := None; ab_error := None |} |}
       end)
    (fun _ =>
       {| code := 200;
          sent := inr {| ab_city := city; ab_alerts := [];
                         ab_note := None;
                         ab_error := Some "Failed to fetch alerts" |} |}).

Definition alertsRoute (apiKey : option string) (city : string)
    (geo : Outcome (UpstreamResponse (list GeoItem)))
    (oneCall : Q -> Q -> Outcome (UpstreamResponse OneCall))
    : Reply AlertsBody :=
  checkApiKey apiKey (alertsHandler city geo oneCall).

End Server.

(** ** Sample inputs *)

Module Samples.

(** Lower-casing of the letters A to Z, the ASCII part of
    [toLowerCase]. *)
Definition lowerAscii (c : ascii) : ascii :=
  let n := nat_of_ascii c in
  if (65 <=? n)%nat && (n <=? 90)%nat then ascii_of_nat (n + 32) else c.

Fixpoint asciiToLowerCase (s : string) : string :=
  match s with
  | EmptyString => EmptyString
  | String c rest => String (lowerAscii c) (asciiToLowerCase rest)
  end.

Definition tenCities : list string :=
  ["Paris"; "Rome"; "Oslo"; "Lima"; "Cairo"; "Delhi"; "Tokyo"; "Quito";
   "Accra"; "Hanoi"].

(** A host five and a half hours ahead of UTC. *)
Definition tzKolkata (tv : Z) : Z := 19800000.

Definition mkItem (seconds : Z) (t w : Q) (cat : string) : ForecastItem :=
  {| dt := seconds;
     main := {| temp := t; humidity := 60 |};
     weather0 := {| weather_main := cat; description := "sample"; icon := "01d" |};
     wind := {| speed := w |} |}.

(** 2023-11-14T22:13:20Z. *)
Definition now0 : Z := 1700000000000.

(** Three-hour samples around [now0]: one before it, two within the next
    day, one beyond. *)
Definition forecast0 : ForecastData :=
  {| list_ := [ mkItem 1699995600 (37 # 2) (5 # 4) "Clear";
                mkItem 1700006400 (171 # 10) 3 "Clouds";
                mkItem 1700017200 (-1 # 2) (11 # 2) "Rain";
                mkItem 1700092800 12 2 "Snow" ] |}.

Definition london : CurrentWeather :=
  {| cw_name := "London";
     cw_main := {| temp := 18; humidity := 65 |};
     cw_weather0 := {| weather_main := "Clouds"; description := "Partly cloudy";
                       icon := "02d" |};
     cw_wind := {| speed := 11 # 2 |};
     cw_coord := Some {| lat := 515074 # 10000; lon := -1278 # 10000 |} |}.

Definition londonAir : AirQualityData :=
  {| aq_city := "London";
     aq_coordinates := {| lat := 515074 # 10000; lon := -1278 # 10000 |};
     aqi := 2; pm2_5 := 8; pm10 := 12; no2 := 15 |}.

(** The page's server answers the forecast request with the body it sends
    when the upstream request failed; every other request succeeds. *)
Definition forecastDown : Network :=
  {| weatherFetch := Normal (ResponseOk (Normal london));
     forecastFetch :=
       Normal (ResponseNotOk (Normal
         {| ed_message := Some "Could not find forecast data for London" |}));
     hourlyFetch := Normal (ResponseOk (Normal forecast0));
     airQualityFetch := Normal (ResponseOk (Normal londonAir));
     alertsFetch := Normal (ResponseOk (Normal {| alerts := [] |})) |}.

(** The forecast succeeds; the hourly request is rejected, the air
    quality request is answered with an error status. *)
Definition extrasDown : Network :=
  {| weatherFetch := Normal (ResponseOk (Normal london));
     forecastFetch := Normal (ResponseOk (Normal forecast0));
     hourlyFetch := Throw {| message := "Failed to fetch" |};
     airQualityFetch :=
       Normal (ResponseNotOk (Normal {| ed_message := Some "unavailable" |}));
     alertsFetch := Normal (ResponseOk (Normal {| alerts := [] |})) |}.

(** A clock that advances by one millisecond per reading up to the last
    day of the range of Dates, and draws that cycle through 0, 0.1, ...,
    0.9. *)
Definition clock0 (k : nat) : Z :=
  Z.min (now0 + Z.of_nat k) (maxTimeValue - msPerDay).

Definition draws0 (k : nat) : Q := Z.of_nat (k mod 10) # 10.

(** Upstream answers seen by the proxy. *)
Definition invalidKey (A : Type) : Server.UpstreamResponse A :=
  {| Server.status := 401; Server.body := Server.Body "Invalid API key" None |}.

Definition geoLondon : Server.UpstreamResponse (list Server.GeoItem) :=
  {| Server.status := 200;
     Server.body := Server.Body "london"
       (Some [ {| Server.g_name := "London"; Server.g_lat := 515074 # 10000;
                  Server.g_lon := -1278 # 10000; Server.g_country := "GB";
                  Server.g_state := Some "England" |} ]) |}.

Definition geoNoMatch : Server.UpstreamResponse (list Server.GeoItem) :=
  {| Server.status := 200; Server.body := Server.Body "empty" (Some []) |}.

Definition oneCallUnauthorized (lat lon : Q)
    : Outcome (Server.UpstreamResponse Server.OneCall) :=
  Normal (invalidKey Server.OneCall).

End Samples.

(** ** Further parts of the page *)

(** The [switch] of [displayAirQuality]: [aqiText] and [aqiColor]. *)
Definition aqiScale (aqi : Z) : string * string :=
  if decide (aqi = 1) then ("Good", "#4CAF50")
  else if decide (aqi = 2) then ("Fair", "#FF9800")
  else if decide (aqi = 3) then ("Moderate", "#FF5722")
  else if decide (aqi = 4) then ("Poor", "#9C27B0")
  else if decide (aqi = 5) then ("Very Poor", "#7B1FA2")
  else ("Unknown", "#9E9E9E").

Definition aqiText (aqi : Z) : string := (aqiScale aqi).1.

Definition aqiColor (aqi : Z) : string := (aqiScale aqi).2.

(** What [updateUVIndex] renders. *)
Record UVIndex : Type := { uvValue : Z; uvLevel : string; uvClass : string }.

(** [updateUVIndex]: [hour] is [new Date().getHours()], [weatherMain] is
    [weatherData.weather[0].main] and [random] the one value drawn from
    [Math.random()]. *)
Definition updateUVIndex (hour : Z) (weatherMain : string) (random : Q) : UVIndex :=
  let value :=
    if decide (10 ≤ hour ∧ hour ≤ 16) then
      if decide (weatherMain = "Clear") then JSMath.floor (random * 8)%Q + 3
      else if decide (weatherMain = "Clouds") then JSMath.floor (random * 5)%Q + 2
      else JSMath.floor (random * 3)%Q + 1
    else JSMath.floor (random * 2)%Q in
  if decide (8 ≤ value) then
    {| uvValue := value; uvLevel := "Very High"; uvClass := "uv-very-high" |}
  else if decide (6 ≤ value) then
    {| uvValue := value; uvLevel := "High"; uvClass := "uv-high" |}
  else if decide (3 ≤ value) then
    {| uvValue := value; uvLevel := "Moderate"; uvClass := "uv-moderate" |}
  else {| uvValue := value; uvLevel := "Low"; uvClass := "uv-low" |}.

(** The width of the progress bar, in percent: [(uvValue / 11) * 100]. *)
Definition uvBarWidth (uv : UVIndex) : Q := (inject_Z (uvValue uv) / 11 * 100)%Q.

Record ClothingItem : Type := { cl_icon : string; cl_text : string }.

(** The array [suggestions] built by [updateClothingSuggestions]. *)
Definition clothingSuggestions (temperature : Q) (weather : string)
    : list ClothingItem :=
  (if Qlt_le_dec temperature 5 then
     [ {| cl_icon := "🧥"; cl_text := "Heavy coat" |};
       {| cl_icon := "🧤"; cl_text := "Gloves" |};
       {| cl_icon := "🧣"; cl_text := "Scarf" |} ]
   else if Qlt_le_dec temperature 15 then
     [ {| cl_icon := "🧥"; cl_text := "Light jacket" |};
       {| cl_icon := "👖"; cl_text := "Long pants" |} ]
   else if Qlt_le_dec temperature 25 then
     [ {| cl_icon := "👕"; cl_text := "T-shirt" |};
       {| cl_icon := "👖"; cl_text := "Comfortable pants" |} ]
   else
     [ {| cl_icon := "👕"; cl_text := "Light clothing" |};
       {| cl_icon := "🩳"; cl_text := "Shorts" |} ])
  ++ (if decide (weather = "Rain") then
        [ {| cl_icon := "☔"; cl_text := "Umbrella" |};
          {| cl_icon := "👢"; cl_text := "Waterproof shoes" |} ]
      else if decide (weather = "Snow") then
        [ {| cl_icon := "👢"; cl_text := "Boots" |};
          {| cl_icon := "🧤"; cl_text := "Gloves" |} ]
      else []).





(** ** The recency list over a session *)

Section RecencyList.
Variable toLowerCase : string -> string.

(** The searches of a session, oldest first, applied to a history. *)
Definition addCities (history : list string) (cities : list string)
    : list string :=
  fold_left (addCity toLowerCase) cities history.

(** The distinct cities of a most-recent-first list: each one kept at its
    first position, in the spelling found there. *)
Fixpoint distinctCities (l : list string) : list string :=
  match l with
  | [] => []
  | city :: rest =>
      city :: filter (fun item => toLowerCase item ≠ toLowerCase city)
                (distinctCities rest)
  end.

End RecencyList.

(** ** Startup health check and the key for the map tiles *)

(** The body of [/api/health] as far as the page reads it. *)
Record Health : Type := { health_hasApiKey : bool }.

(** [checkServerHealth]; [enableDemoMode] is the method it calls.  The
    request is not one of the search requests that [requests] logs. *)
Definition checkServerHealth (enableDemoMode : Eff unit)
    (healthFetch : Outcome (Response Health)) : Eff unit :=
  tryCatch
    (response ← await healthFetch;
     match response with
     | ResponseOk json =>
         health ← await json;
         if negb (health_hasApiKey health) then enableDemoMode else mret tt
     | ResponseNotOk json =>
         _ ← await json;
         enableDemoMode
     end)
    (fun error => enableDemoMode).

(** The body of [/api/config] as the page reads it:
    [data.OPENWEATHER_API_KEY]. *)
Record ConfigData : Type := { OPENWEATHER_API_KEY : option string }.

(** The field [apiKey] of the dashboard and the number of requests sent
    to [/api/config]. *)
Record KeyCache : Type := { apiKey : option string; configRequests : nat }.

(** [!this.apiKey]. *)
Definition noKey (k : option string) : bool :=
  match k with
  | Some key => bool_decide (key = "")
  | None => true
  end.

(** [getApiKey]: the value returned and the state left. *)
Definition getApiKey (configFetch : Outcome (Response ConfigData))
    (cache : KeyCache) : option string * KeyCache :=
  if noKey (apiKey cache) then
    let sent := {| apiKey := apiKey cache;
                   configRequests := S (configRequests cache) |} in
    match configFetch with
    | Normal (ResponseOk (Normal data)) =>
        (OPENWEATHER_API_KEY data,
         {| apiKey := OPENWEATHER_API_KEY data;
            configRequests := S (configRequests cache) |})
    | _ => (None, sent)
    end
  else (apiKey cache, cache).

(** ** Demo forecast *)

Section DemoForecast.
Variable Date_now : nat -> Z.

Definition sampleDay (days : Z) (t : Z) (text : string) (h w : Z)
    (code : string) : Gen DailyForecast :=
  now ← dateNow Date_now;
  mret {| df_date := newDate (now + days * 24 * 60 * 60 * 1000);
          df_temp := t; df_description := text;
          df_humidity := inject_Z h; df_windSpeed := w; df_icon := code |}.

(** [sampleForecast] of [enableDemoMode]; the elements are evaluated in
    order, each with its own reading of the clock. *)
Definition demoSampleForecast : Gen (list DailyForecast) :=
  d1 ← sampleDay 1 19 "Sunny" 60 12 "01d";
  d2 ← sampleDay 2 17 "Cloudy" 70 15 "03d";
  d3 ← sampleDay 3 20 "Rainy" 80 18 "10d";
  d4 ← sampleDay 4 16 "Partly cloudy" 65 10 "02d";
  d5 ← sampleDay 5 22 "Sunny" 55 8 "01d";
  mret [d1; d2; d3; d4; d5].

End DemoForecast.

(** ** Further routes of the proxy *)

Module Routes.
Import Server.

Definition notFoundReply {B : Type} (what text : string) : Reply B :=
  {| code := 404;
     sent := inl {| error := what; error_message := text |} |}.

Definition serverError {B : Type} (text : string) : Reply B :=
  {| code := 500;
     sent := inl {| error := "Internal server error"; error_message := text |} |}.

(** [GET /api/forecast/:city]. *)
Definition forecastHandler {A : Type} (city : string)
    (upstream : Outcome (UpstreamResponse A)) : Reply A :=
  tryOr
    (response ← upstream;
     if negb (ok response) then
       errorText ← readText response;
       mret (notFoundReply "Forecast not found"
               ("Could not find forecast data for " ++ city))
     else
       data ← readJson response;
       mret {| code := 200; sent := inr data |})
    (fun _ => serverError "Failed to fetch forecast data").

Definition forecastRoute {A : Type} (apiKey : option string) (city : string)
    (upstream : Outcome (UpstreamResponse A)) : Reply A :=
  checkApiKey apiKey (forecastHandler city upstream).

(** The body of a successful air-quality reply. *)
Record AirQualityBody (A : Type) : Type :=
  { aqb_city : string; aqb_lat : Q; aqb_lon : Q; aqb_airQuality : A }.
Arguments aqb_city {A} _.
Arguments aqb_lat {A} _.
Arguments aqb_lon {A} _.
Arguments aqb_airQuality {A} _.

(** [GET /api/air-quality/:city]; [airPollution lat lon] is what the
    second fetch settles to. *)
Definition airQualityHandler {A : Type} (city : string)
    (geo : Outcome (UpstreamResponse (list GeoItem)))
    (airPollution : Q -> Q -> Outcome (UpstreamResponse A))
    : Reply (AirQualityBody A) :=
  tryOr
    (geoResponse ← geo;
     if negb (ok geoResponse) then
       mret (notFoundReply "City not found"
               ("Could not find coordinates for " ++ city))
     else
       geoData ← readJson geoResponse;
       match geoData with
       | [] => mret (notFoundReply "City not found"
                       ("Could not find coordinates for " ++ city))
       | first :: _ =>
           aqResponse ← airPollution (g_lat first) (g_lon first);
           if negb (ok aqResponse) then
             mret {| code := 500;
                     sent := inl {| error := "Air quality data not available";
                                    error_message :=
                                      "Failed to fetch air quality data" |} |}
           else
             aqData ← readJson aqResponse;
             mret {| code := 200;
                     sent := inr {| aqb_city := city;
                                    aqb_lat := g_lat first;
                                    aqb_lon := g_lon first;
                                    aqb_airQuality := aqData |} |}
       end)
    (fun _ => serverError "Failed to fetch air quality data").

Definition airQualityRoute {A : Type} (apiKey : option string) (city : string)
    (geo : Outcome (UpstreamResponse (list GeoItem)))
    (airPollution : Q -> Q -> Outcome (UpstreamResponse A))
    : Reply (AirQualityBody A) :=
  checkApiKey apiKey (airQualityHandler city geo airPollution).

(** [GET /api/geocode/:city]. *)
Definition geocodeHandler (city : string)
    (upstream : Outcome (UpstreamResponse (list GeoItem)))
    : Reply (list GeoItem) :=
  tryOr
    (response ← upstream;
     if negb (ok response) then
       mret {| code := 500;
               sent := inl {| error := "Geocoding failed";
                              error_message := "Failed to get city coordinates" |} |}
     else
       data ← readJson response;
       mret {| code := 200; sent := inr data |})
    (fun _ => serverError "Failed to get city coordinates").

Definition geocodeRoute (apiKey : option string) (city : string)
    (upstream : Outcome (UpstreamResponse (list GeoItem)))
    : Reply (list GeoItem) :=
  checkApiKey apiKey (geocodeHandler city upstream).

(** The body of [/api/health]; [timestamp] and [uptime] come from the
    clock and the process. *)
Record HealthBody : Type :=
  { hb_status : string; hb_timestamp : string; hb_uptime : Q;
    hb_hasApiKey : bool }.

(** [GET /api/health], a route without [checkApiKey]. *)
Definition healthRoute (apiKey : option string) (timestamp : string) (uptime : Q)
    : Reply HealthBody :=
  {| code := 200;
     sent := inr {| hb_status := "OK"; hb_timestamp := timestamp;
                    hb_uptime := uptime; hb_hasApiKey := hasApiKey apiKey |} |}.

(** What [/api/config] sends: the status, and the text of [error] or the
    key under [OPENWEATHER_API_KEY]. *)
Record ConfigReply : Type := { config_code : Z; config_sent : string + string }.

(** [GET /api/config], with its own test of the key. *)
Definition configRoute (apiKey : option string) : ConfigReply :=
  match apiKey with
  | Some key =>
      if decide (key = "") then
        {| config_code := 500; config_sent := inl "API key not found" |}
      else {| config_code := 200; config_sent := inr key |}
  | None => {| config_code := 500; config_sent := inl "API key not found" |}
  end.

End Routes.

(** ** From a reply of the proxy to the response the page sees *)

(** [response.ok] for a status. *)
Definition statusOk (status : Z) : bool := bool_decide (200 ≤ status ≤ 299).

(** The response [fetch] resolves to for a reply sent with
    [res.status(code).json(body)]: [ok] from the status, [json()] the
    body.  [decode] reads the body the way the page does.  The two shapes
    the typed responses of the page have no value for (a success status
    with an error body, a failure status with a data body) give [None]. *)
Definition deliver {B A : Type} (decode : B -> A) (reply : Server.Reply B)
    : option (Response A) :=
  match Server.sent reply with
  | inr data =>
      if statusOk (Server.code reply) then Some (ResponseOk (Normal (decode data)))
      else None
  | inl err =>
      if statusOk (Server.code reply) then None
      else Some (ResponseNotOk
                   (Normal {| ed_message := Some (Server.error_message err) |}))
  end.

Definition deliverConfig (reply : Routes.ConfigReply) : Response ConfigData :=
  match Routes.config_sent reply with
  | inr key =>
      if statusOk (Routes.config_code reply) then
        ResponseOk (Normal {| OPENWEATHER_API_KEY := Some key |})
      else ResponseNotOk (Normal {| ed_message := None |})
  | inl _ =>
      if statusOk (Routes.config_code reply) then
        ResponseOk (Normal {| OPENWEATHER_API_KEY := None |})
      else ResponseNotOk (Normal {| ed_message := None |})
  end.

Definition healthOfBody (body : Routes.HealthBody) : Health :=
  {| health_hasApiKey := Routes.hb_hasApiKey body |}.



(** A clock that advances by one millisecond per reading and stops five
    days before the end of the range of Dates. *)
Definition clock5 (k : nat) : Z :=
  Z.min (Samples.now0 + Z.of_nat k) (maxTimeValue - 5 * msPerDay).

(** * Properties *)

(** ** Rounding *)

Lemma round_nearest (x : Q) :
  (inject_Z (JSMath.round x) - (1 # 2) <= x)%Q
  ∧ (x < inject_Z (JSMath.round x) + (1 # 2))%Q.
Proof.
  unfold JSMath.round.
  pose proof (Qfloor_le (x + (1 # 2))) as Hle.
  pose proof (Qlt_floor (x + (1 # 2))) as Hlt.
  rewrite inject_Z_plus in Hlt. change (inject_Z 1) with 1%Q in Hlt.
  unfold JSMath.round. split; Lqa.lra.
Qed.

(** ** Forecast reducer *)

Section ForecastReducerFacts.
Variable LocalTZA : Z -> Z.

Lemma fold_forecastStep (l : list ForecastItem) :
  ∀ acc seen,
    (fold_left (forecastStep LocalTZA) l (acc, seen)).1
    = acc ++ (dailyOf <$> firstOfEachDay LocalTZA seen l).
Proof.
  induction l as [|item rest IH]; intros acc seen; simpl.
  - by rewrite app_nil_r.
  - destruct (decide (dayKeyOf LocalTZA item ∈ seen)) as [Hin|Hnin].
    + apply IH.
    + rewrite IH. by rewrite <- app_assoc.
Qed.

Lemma processForecastData_eq (data : ForecastData) :
  processForecastData LocalTZA data
  = take 5 (dailyOf <$> firstOfEachDay LocalTZA ∅ (list_ data)).
Proof.
  unfold processForecastData.
  pose proof (fold_forecastStep (list_ data) [] ∅) as H.
  destruct (fold_left _ _ _) as [d s]. simpl in H. by rewrite H.
Qed.

Lemma firstOfEachDay_fresh (l : list ForecastItem) :
  ∀ seen item, item ∈ firstOfEachDay LocalTZA seen l →
    dayKeyOf LocalTZA item ∉ seen.
Proof.
  induction l as [|x rest IH]; intros seen item; simpl.
  - by intros ?%elem_of_nil.
  - destruct (decide (dayKeyOf LocalTZA x ∈ seen)) as [Hin|Hnin].
    + apply IH.
    + intros [->|Hrest]%elem_of_cons; [done|].
      apply IH in Hrest. set_solver.
Qed.

Lemma firstOfEachDay_NoDup (l : list ForecastItem) :
  ∀ seen, NoDup (dayKeyOf LocalTZA <$> firstOfEachDay LocalTZA seen l).
Proof.
  induction l as [|x rest IH]; intros seen; simpl.
  - constructor.
  - destruct (decide (dayKeyOf LocalTZA x ∈ seen)) as [Hin|Hnin]; [apply IH|].
    rewrite fmap_cons. constructor; [|apply IH].
    intros (y & Hk & Hy)%list_elem_of_fmap.
    apply firstOfEachDay_fresh in Hy. set_solver.
Qed.

Lemma firstOfEachDay_sublist (l : list ForecastItem) :
  ∀ seen, firstOfEachDay LocalTZA seen l `sublist_of` l.
Proof.
  induction l as [|x rest IH]; intros seen; simpl; [done|].
  destruct (decide (dayKeyOf LocalTZA x ∈ seen)).
  - by apply sublist_cons.
  - by apply sublist_skip.
Qed.



End ForecastReducerFacts.

(** On a host at UTC+5:30 the first three samples of [forecast0] fall on
    one local day and the fourth on the next: two entries, built from the
    first and the fourth sample; 18.5 rounds to 19 and 1.25 m/s, 4.5
    km/h, to 5. *)
Example processForecastData_forecast0 :
  processForecastData Samples.tzKolkata Samples.forecast0
  = [ {| df_date := Some 1699995600000; df_temp := 19; df_description := "sample";
         df_humidity := 60; df_windSpeed := 5; df_icon := "01d" |};
      {| df_date := Some 1700092800000; df_temp := 12; df_description := "sample";
         df_humidity := 60; df_windSpeed := 7; df_icon := "01d" |} ].
Proof. reflexivity. Qed.

Example getWeatherIcon_unknown : getWeatherIcon "Meteor" = "🌤️".
Proof. reflexivity. Qed.

(** ** Hourly view *)

Section HourlyFacts.
Variable now : Z.

Lemma fold_hourlyStep (l : list ForecastItem) :
  ∀ acc, fold_left (hourlyStep now) l acc
         = acc ++ (hourlyOf <$> filter (fun item => inNext24h now item) l).
Proof.
  induction l as [|item rest IH]; intros acc; simpl.
  - by rewrite app_nil_r.
  - rewrite IH. unfold hourlyStep.
    destruct (inNext24h now item) eqn:Hguard.
    + rewrite filter_cons_True by (by apply Is_true_true).
      by rewrite fmap_cons, <- app_assoc.
    + rewrite filter_cons_False by (by apply Is_true_false). done.
Qed.

Lemma inNext24h_window (item : ForecastItem) :
  inNext24h now item →
  ∃ t, itemDate item = Some t ∧ now < t ≤ now + 24 * 60 * 60 * 1000.
Proof.
  unfold inNext24h, gt, le. intros [Hgt Hle]%andb_prop_elim.
  destruct (itemDate item) as [t|]; [|done].
  destruct (newDate _) as [u|] eqn:Hu; [|done].
  apply bool_decide_unpack in Hgt, Hle.
  unfold newDate in Hu. case_decide; [|done]. simplify_eq.
  exists t. split; [done|lia].
Qed.

Lemma inNext24h_iff (item : ForecastItem) :
  - maxTimeValue ≤ now ≤ maxTimeValue - 24 * 60 * 60 * 1000 →
  inNext24h now item ↔ now < dt item * 1000 ≤ now + 24 * 60 * 60 * 1000.
Proof.
  intros Hnow. unfold inNext24h, itemDate, gt, le, newDate.
  repeat case_decide; rewrite ?andb_True, ?bool_decide_spec; simpl;
    unfold maxTimeValue in *; try lia; intuition lia.
Qed.

(** C2. For a clock reading [now] in the range of valid time values, the
    hourly reduction returns only entries whose time t satisfies
    now < t <= now + 24h, returns at most 24 of them, keeps the order of
    the samples (it is the first 24 of the qualifying samples, mapped in
    place), and returns every qualifying sample when no more than 24
    qualify. *)
Theorem processHourlyData_next_24_hours (data : ForecastData) :
  - maxTimeValue ≤ now ≤ maxTimeValue - 24 * 60 * 60 * 1000 →
  let out := processHourlyData now data in
  let qualifying :=
    filter (fun item => now < dt item * 1000 ≤ now + 24 * 60 * 60 * 1000)
           (list_ data) in
  Forall (fun entry =>
            ∃ t, hf_time entry = Some t ∧ now < t ≤ now + 24 * 60 * 60 * 1000) out
  ∧ (length out ≤ 24)%nat
  ∧ out = take 24 (hourlyOf <$> qualifying)
  ∧ out `sublist_of` (hourlyOf <$> list_ data)
  ∧ ((length qualifying ≤ 24)%nat → out = hourlyOf <$> qualifying).
Proof.
  intros Hnow out qualifying.
  assert (Hout : out = take 24 (hourlyOf <$> qualifying)).
  { subst out qualifying. unfold processHourlyData.
    rewrite fold_hourlyStep. simpl. do 2 f_equal.
    apply list_filter_iff. intros item. by apply inNext24h_iff. }
  split; [|split; [|split; [|split]]].
  - rewrite Hout. apply Forall_take, Forall_fmap, Forall_forall.
    intros item [Hq _]%list_elem_of_filter. simpl.
    exists (dt item * 1000). split; [|done].
    unfold itemDate, newDate. rewrite decide_True; [done|].
    unfold maxTimeValue in *. lia.
  - rewrite Hout, length_take. lia.
  - exact Hout.
  - rewrite Hout. etrans; [apply sublist_take|].
    apply fmap_sublist, sublist_filter.
  - intros Hfew. rewrite Hout. apply take_ge. by rewrite length_fmap.
Qed.

End HourlyFacts.

Lemma processHourlyData_next_24_hours_witness :
  let out := processHourlyData Samples.now0 Samples.forecast0 in
  (length out ≤ 24)%nat
  ∧ out = [hourlyOf (Samples.mkItem 1700006400 (171 # 10) 3 "Clouds");
           hourlyOf (Samples.mkItem 1700017200 (-1 # 2) (11 # 2) "Rain")].
Proof.
  destruct (processHourlyData_next_24_hours Samples.now0 Samples.forecast0)
    as (_ & Hlen & Hout & _).
  - unfold maxTimeValue, Samples.now0. lia.
  - split; [exact Hlen|]. rewrite Hout. reflexivity.
Defined.

(** ** Search history *)

Section SearchHistoryFacts.
Variable toLowerCase : string -> string.

Lemma addCity_unfold (history : list string) (city : string) :
  addCity toLowerCase history city
  = take 10 (city :: filter (fun item => toLowerCase item ≠ toLowerCase city) history).
Proof.
  unfold addCity. case_decide as Hlen; [done|].
  symmetry. apply take_ge. lia.
Qed.

Lemma addCity_length (history : list string) (city : string) :
  (length (addCity toLowerCase history city) ≤ 10)%nat.
Proof. rewrite addCity_unfold, length_take. lia. Qed.

Lemma filter_other_NoDup (history : list string) (city : string) :
  NoDup (toLowerCase <$> history) →
  NoDup (toLowerCase <$>
           city :: filter (fun item => toLowerCase item ≠ toLowerCase city) history).
Proof.
  intros Hnodup. rewrite fmap_cons. constructor.
  - intros (item & Heq & [Hne _]%list_elem_of_filter)%list_elem_of_fmap. done.
  - eapply sublist_NoDup; [exact Hnodup|].
    apply fmap_sublist, sublist_filter.
Qed.

Lemma filter_absent (history : list string) (city : string) :
  toLowerCase city ∉ toLowerCase <$> history →
  filter (fun item => toLowerCase item ≠ toLowerCase city) history = history.
Proof.
  induction history as [|x rest IH]; intros Habsent; [done|].
  rewrite fmap_cons, not_elem_of_cons in Habsent. destruct Habsent as [Hx Hrest].
  rewrite filter_cons_True by congruence. by rewrite IH.
Qed.

Lemma filter_present_length (history : list string) (city : string) :
  NoDup (toLowerCase <$> history) →
  toLowerCase city ∈ toLowerCase <$> history →
  S (length (filter (fun item => toLowerCase item ≠ toLowerCase city) history))
  = length history.
Proof.
  induction history as [|x rest IH]; intros Hnodup Hin.
  - by apply elem_of_nil in Hin.
  - rewrite fmap_cons in Hnodup, Hin. apply NoDup_cons in Hnodup as [Hx Hrest].
    destruct (decide (toLowerCase x = toLowerCase city)) as [Heq|Hne].
    + rewrite filter_cons_False by (intros ?; done).
      rewrite filter_absent; [done|]. by rewrite <- Heq.
    + rewrite filter_cons_True by done. simpl. f_equal. apply IH; [done|].
      apply elem_of_cons in Hin as [Heq|Hin]; [congruence|done].
Qed.

(** C5. From a history that satisfies the invariant (at most 10 entries,
    no two equal under case-insensitive comparison), [addToSearchHistory]
    reaches a history that satisfies it, whatever the city; when the
    history holds 10 entries and the city matches none of them, the
    oldest (last) entry is dropped, the city is put in front and the
    length stays 10. *)
Theorem addToSearchHistory_preserves_invariant (s : Dashboard) (city : string) :
  historyInvariant toLowerCase (searchHistory s) →
  let s' := (addToSearchHistory toLowerCase city s).2 in
  historyInvariant toLowerCase (searchHistory s')
  ∧ (length (searchHistory s) = 10%nat →
     toLowerCase city ∉ toLowerCase <$> searchHistory s →
     ∃ kept oldest,
       searchHistory s = kept ++ [oldest]
       ∧ searchHistory s' = city :: kept
       ∧ length (searchHistory s') = 10%nat).
Proof.
  intros [Hlen Hnodup] s'. subst s'. simpl. split.
  - split; [apply addCity_length|].
    rewrite addCity_unfold.
    eapply sublist_NoDup; [apply (filter_other_NoDup _ city Hnodup)|].
    apply fmap_sublist, sublist_take.
  - intros Hten Habsent.
    rewrite addCity_unfold, filter_absent by done.
    destruct (searchHistory s) as [|x rest] eqn:Hh using rev_ind; [done|].
    clear IHrest. rewrite length_app in Hten. simpl in Hten.
    exists rest, x. split; [done|].
    change (take 10 (city :: rest ++ [x])) with (city :: take 9 (rest ++ [x])).
    rewrite take_app_length' by lia. split; [done|]. simpl. lia.
Qed.

(** C6 (amended). From a history that satisfies the invariant,
    [addToSearchHistory] with a city that is already present, possibly in
    another letter case, reaches a history whose first entry is that city,
    that holds no other entry for it, and whose length is unchanged. *)
Theorem addToSearchHistory_existing_city_to_front (s : Dashboard) (city : string) :
  historyInvariant toLowerCase (searchHistory s) →
  toLowerCase city ∈ toLowerCase <$> searchHistory s →
  let s' := (addToSearchHistory toLowerCase city s).2 in
  (∃ others, searchHistory s' = city :: others
             ∧ toLowerCase city ∉ toLowerCase <$> others)
  ∧ length (searchHistory s') = length (searchHistory s).
Proof.
  intros [Hlen Hnodup] Hin s'. subst s'. simpl.
  pose proof (filter_present_length _ city Hnodup Hin) as Hone.
  rewrite addCity_unfold.
  rewrite take_ge by (simpl; lia). split.
  - eexists. split; [done|].
    intros (item & Heq & [Hne _]%list_elem_of_filter)%list_elem_of_fmap. done.
  - simpl. done.
Qed.

End SearchHistoryFacts.

Lemma addToSearchHistory_preserves_invariant_witness :
  let s := newDashboard (Some Samples.tenCities) in
  let s' := (addToSearchHistory Samples.asciiToLowerCase "Kyiv" s).2 in
  historyInvariant Samples.asciiToLowerCase (searchHistory s')
  ∧ searchHistory s' = "Kyiv" :: take 9 Samples.tenCities.
Proof.
  destruct (addToSearchHistory_preserves_invariant Samples.asciiToLowerCase
              (newDashboard (Some Samples.tenCities)) "Kyiv") as [Hinv _].
  - split; [simpl; lia|]. compute_done.
  - split; [exact Hinv|reflexivity].
Defined.

Lemma addToSearchHistory_existing_city_to_front_witness :
  let s := newDashboard (Some ["Paris"; "London"; "Oslo"]) in
  let s' := (addToSearchHistory Samples.asciiToLowerCase "LONDON" s).2 in
  searchHistory s' = ["LONDON"; "Paris"; "Oslo"]
  ∧ length (searchHistory s') = length (searchHistory s).
Proof.
  destruct (addToSearchHistory_existing_city_to_front Samples.asciiToLowerCase
              (newDashboard (Some ["Paris"; "London"; "Oslo"])) "LONDON")
    as [_ Hlen].
  - split; [simpl; lia|]. compute_done.
  - compute_done.
  - split; [reflexivity|exact Hlen].
Defined.

(** C6 as stated fails on a history that holds the city twice: both
    entries are removed and one is added, so the length changes. *)
Lemma addToSearchHistory_duplicates_shrink :
  let s := newDashboard (Some ["London"; "london"; "Oslo"]) in
  let s' := (addToSearchHistory Samples.asciiToLowerCase "LONDON" s).2 in
  Samples.asciiToLowerCase "LONDON"
    ∈ Samples.asciiToLowerCase <$> searchHistory s
  ∧ searchHistory s' = ["LONDON"; "Oslo"]
  ∧ length (searchHistory s') ≠ length (searchHistory s).
Proof.
  split; [|split].
  - compute_done.
  - reflexivity.
  - vm_compute. lia.
Qed.

(** ** Search *)

Section SearchFacts.
Variable LocalTZA : Z -> Z.
Variable toLowerCase : string -> string.
Variable now : Z.

Lemma fetchCurrentWeather_ok (net : Network) (city : string) (s : Dashboard)
    (cw : CurrentWeather) :
  settledJson (weatherFetch net) = Some cw →
  fetchCurrentWeather net city s = (Normal cw, logRequest (GetWeather city) s).
Proof.
  unfold fetchCurrentWeather, settledJson.
  destruct (weatherFetch net) as [[[a|e]|[ed|e]]|e] eqn:H; intros [= <-].
  cbv [fetch mbind Eff_bind modify await]. reflexivity.
Qed.

Lemma fetchForecast_ok (net : Network) (city : string) (s : Dashboard)
    (data : ForecastData) :
  settledJson (forecastFetch net) = Some data →
  fetchForecast LocalTZA net city s
  = (Normal (processForecastData LocalTZA data), logRequest (GetForecast city) s).
Proof.
  unfold fetchForecast, settledJson.
  destruct (forecastFetch net) as [[[a|e]|[ed|e]]|e] eqn:H; intros [= <-].
  cbv [fetch mbind Eff_bind modify await mret Eff_ret]. reflexivity.
Qed.

Lemma fetchForecast_throws (net : Network) (city : string) (s : Dashboard) :
  settledJson (forecastFetch net) = None →
  ∃ e, fetchForecast LocalTZA net city s
       = (Throw e, logRequest (GetForecast city) s).
Proof.
  unfold fetchForecast, settledJson.
  destruct (forecastFetch net) as [[[a|e]|[ed|e]]|e] eqn:H; intros [=];
    cbv [fetch mbind Eff_bind modify await throw]; eauto.
Qed.

Lemma fetchHourlyForecast_total (net : Network) (city : string) (s : Dashboard) :
  fetchHourlyForecast now net city s
  = (Normal (default [] (processHourlyData now <$> settledJson (hourlyFetch net))),
     logRequest (GetForecast city) s).
Proof.
  unfold fetchHourlyForecast, settledJson.
  destruct (hourlyFetch net) as [[[a|e]|[ed|e]]|e] eqn:H;
    cbv [fetch mbind Eff_bind modify await tryCatch mret Eff_ret];
    reflexivity.
Qed.

Lemma fetchAirQuality_total (net : Network) (city : string) (s : Dashboard) :
  fetchAirQuality net city s
  = (Normal (settledJson (airQualityFetch net)), logRequest (GetAirQuality city) s).
Proof.
  unfold fetchAirQuality, settledJson.
  destruct (airQualityFetch net) as [[[a|e]|[ed|e]]|e] eqn:H;
    cbv [fetch mbind Eff_bind modify await tryCatch mret Eff_ret];
    reflexivity.
Qed.

Lemma fetchAlerts_total (net : Network) (city : string) (s : Dashboard) :
  fetchAlerts net city s
  = (Normal (default {| alerts := [] |} (settledJson (alertsFetch net))),
     logRequest (GetAlerts city) s).
Proof.
  unfold fetchAlerts, settledJson.
  destruct (alertsFetch net) as [[[a|e]|[ed|e]]|e] eqn:H;
    cbv [fetch mbind Eff_bind modify await tryCatch mret Eff_ret];
    reflexivity.
Qed.

(** C3 (amended). When the current-conditions fetch succeeds and the
    forecast fetch fails, [searchWeather] catches the error: its message
    is shown in the current-weather and forecast panels, the hourly,
    air-quality and alerts panels, the history and the current city are
    left as they were, and no request is sent after the forecast request.
    When the forecast fetch succeeds too, the search completes whatever
    happens to the hourly, air-quality and alerts fetches: a failed one
    contributes the empty list, null, and an empty alerts list. *)
Theorem searchWeather_forecast_failure_aborts (net : Network) (city : string)
    (s : Dashboard) (cw : CurrentWeather) :
  settledJson (weatherFetch net) = Some cw →
  let s' := (searchWeather LocalTZA toLowerCase now net city s).2 in
  (settledJson (forecastFetch net) = None →
     (∃ msg, currentPanel s' = ErrorPanel msg ∧ forecastPanel s' = ErrorPanel msg)
     ∧ hourlyPanel s' = hourlyPanel s
     ∧ airQualityPanel s' = airQualityPanel s
     ∧ alertsPanel s' = alertsPanel s
     ∧ searchHistory s' = searchHistory s
     ∧ currentCity s' = currentCity s
     ∧ requests s' = requests s ++ [GetWeather city; GetForecast city])
  ∧ (∀ data, settledJson (forecastFetch net) = Some data →
     currentPanel s' = Showing cw
     ∧ forecastPanel s' = Showing (processForecastData LocalTZA data)
     ∧ hourlyPanel s'
       = Showing (default [] (processHourlyData now <$> settledJson (hourlyFetch net)))
     ∧ airQualityPanel s' = Showing (settledJson (airQualityFetch net))
     ∧ alertsPanel s'
       = Showing (default {| alerts := [] |} (settledJson (alertsFetch net)))
     ∧ searchHistory s' = addCity toLowerCase (searchHistory s) city
     ∧ currentCity s' = city).
Proof.
  intros Hcw s'. subst s'. split.
  - intros Hfail.
    unfold searchWeather, searchWeatherTry, tryCatch.
    cbv [mbind Eff_bind showLoading modify].
    rewrite (fetchCurrentWeather_ok _ _ _ _ Hcw).
    destruct (fetchForecast_throws net city
                (logRequest (GetWeather city)
                   {| searchHistory := searchHistory s; currentCity := currentCity s;
                      storedHistory := storedHistory s; currentPanel := LoadingPanel;
                      forecastPanel := LoadingPanel; hourlyPanel := hourlyPanel s;
                      airQualityPanel := airQualityPanel s;
                      alertsPanel := alertsPanel s;
                      historyPanel := historyPanel s; requests := requests s |})
                Hfail) as [e He].
    rewrite He. simpl. rewrite <- app_assoc. eauto 10.
  - intros data Hdata.
    unfold searchWeather, searchWeatherTry, tryCatch.
    cbv [mbind Eff_bind showLoading modify].
    rewrite (fetchCurrentWeather_ok _ _ _ _ Hcw).
    rewrite (fetchForecast_ok _ _ _ _ Hdata).
    rewrite fetchHourlyForecast_total, fetchAirQuality_total, fetchAlerts_total.
    simpl. done.
Qed.

End SearchFacts.

Lemma searchWeather_forecast_failure_aborts_witness :
  let s := newDashboard None in
  let s' := (searchWeather Samples.tzKolkata Samples.asciiToLowerCase
               Samples.now0 Samples.extrasDown "London" s).2 in
  currentPanel s' = Showing Samples.london
  ∧ hourlyPanel s' = Showing []
  ∧ airQualityPanel s' = Showing None
  ∧ searchHistory s' = ["London"].
Proof.
  destruct (searchWeather_forecast_failure_aborts Samples.tzKolkata
              Samples.asciiToLowerCase Samples.now0 Samples.extrasDown "London"
              (newDashboard None) Samples.london) as [_ Hok].
  - reflexivity.
  - destruct (Hok Samples.forecast0) as (Hc & _ & Hh & Ha & _ & Hs & _).
    + reflexivity.
    + split; [exact Hc|split; [exact Hh|split; [exact Ha|exact Hs]]].
Defined.

(** C3 as stated fails: with the current conditions fetched and the
    forecast request answered by an error, no result is composed.  Both
    panels show the error, the hourly, air-quality and alerts requests
    are never sent, and the history stays empty. *)
Lemma searchWeather_forecast_failure_no_result :
  let s := newDashboard None in
  let s' := (searchWeather Samples.tzKolkata Samples.asciiToLowerCase
               Samples.now0 Samples.forecastDown "London" s).2 in
  settledJson (weatherFetch Samples.forecastDown) = Some Samples.london
  ∧ settledJson (forecastFetch Samples.forecastDown) = None
  ∧ currentPanel s' = ErrorPanel "Could not find forecast data for London"
  ∧ forecastPanel s' = ErrorPanel "Could not find forecast data for London"
  ∧ forecastPanel s' ≠ Showing []
  ∧ hourlyPanel s' = Untouched
  ∧ airQualityPanel s' = Untouched
  ∧ alertsPanel s' = Untouched
  ∧ requests s' = [GetWeather "London"; GetForecast "London"]
  ∧ searchHistory s' = [].
Proof. repeat split; try reflexivity. discriminate. Qed.

(** ** Proxy endpoints *)

Section ServerFacts.
Import Server.

Lemma checkApiKey_pass {B : Type} (apiKey : option string) (next : Reply B) :
  hasApiKey apiKey = true → checkApiKey apiKey next = next.
Proof. unfold checkApiKey. by intros ->. Qed.

Lemma checkApiKey_refuse {B : Type} (apiKey : option string) (next : Reply B) :
  hasApiKey apiKey = false → code (checkApiKey apiKey next) = 500.
Proof. unfold checkApiKey. by intros ->. Qed.

(** C8 (amended). With a key configured, the current-weather endpoint
    answers 404 "City not found" to every upstream non-success status
    whose body can be read, whether that status means not found or not;
    it answers 500 when the fetch is rejected, when the body cannot be
    read, or when a success body is not JSON; it relays the data with 200
    otherwise.  Without a key it answers 500.  A reply is produced in
    every case. *)
Theorem weatherRoute_status_mapping {A : Type} (apiKey : option string)
    (city : string) (upstream : Outcome (UpstreamResponse A)) :
  let reply := weatherRoute apiKey city upstream in
  (hasApiKey apiKey = false → code reply = 500)
  ∧ (hasApiKey apiKey = true →
     (∀ response text parsed,
        upstream = Normal response → ok response = false →
        body response = Body text parsed →
        reply = {| code := 404;
                   sent := inl {| error := "City not found";
                                  error_message :=
                                    "Could not find weather data for " ++ city |} |})
     ∧ (∀ response e,
        upstream = Normal response → body response = Unreadable e →
        code reply = 500)
     ∧ (∀ response text,
        upstream = Normal response → ok response = true →
        body response = Body text None → code reply = 500)
     ∧ (∀ e, upstream = Throw e → code reply = 500)
     ∧ (∀ response text data,
        upstream = Normal response → ok response = true →
        body response = Body text (Some data) →
        reply = {| code := 200; sent := inr data |})).
Proof.
  intros reply. subst reply. unfold weatherRoute. split.
  - apply checkApiKey_refuse.
  - intros Hkey. rewrite (checkApiKey_pass _ _ Hkey).
    unfold weatherHandler, tryOr, readText, readJson.
    split; [|split; [|split; [|split]]].
    + intros response text parsed -> Hok Hbody. simpl. by rewrite Hok, Hbody.
    + intros response e -> Hbody. simpl. rewrite Hbody. by destruct (ok response).
    + intros response text -> Hok Hbody. simpl. by rewrite Hok, Hbody.
    + by intros e ->.
    + intros response text data -> Hok Hbody. simpl. by rewrite Hok, Hbody.
Qed.

(** C7 (amended). With a key configured and the city resolved by the
    geocoding request, the alerts endpoint answers 200 with an empty
    alerts array whenever the alerts request fails (rejected, non-success
    status such as an authorization failure, or unreadable body); it does
    so too when the geocoding request itself is rejected or unreadable.
    It answers 404 when geocoding answers with a non-success status or
    with no match, and 500 when no key is configured. *)
Theorem alertsRoute_degrades_to_empty (apiKey : option string) (city : string)
    (geo : Outcome (UpstreamResponse (list GeoItem)))
    (oneCall : Q -> Q -> Outcome (UpstreamResponse OneCall)) :
  let reply := alertsRoute apiKey city geo oneCall in
  (hasApiKey apiKey = false → code reply = 500)
  ∧ (hasApiKey apiKey = true →
     (∀ geoResponse first others,
        geo = Normal geoResponse → ok geoResponse = true →
        readJson geoResponse = Normal (first :: others) →
        upstreamFailed (oneCall (g_lat first) (g_lon first)) →
        code reply = 200
        ∧ ∃ answer, sent reply = inr answer
                    ∧ ab_city answer = city ∧ ab_alerts answer = [])
     ∧ ((∃ e, geo = Throw e)
        ∨ (∃ geoResponse e, geo = Normal geoResponse ∧ ok geoResponse = true
                            ∧ readJson geoResponse = Throw e) →
        code reply = 200
        ∧ ∃ answer, sent reply = inr answer
                    ∧ ab_city answer = city ∧ ab_alerts answer = [])
     ∧ (∀ geoResponse,
        geo = Normal geoResponse →
        ok geoResponse = false ∨ readJson geoResponse = Normal [] →
        reply = cityNotFound city)).
Proof.
  intros reply. subst reply. unfold alertsRoute. split.
  - apply checkApiKey_refuse.
  - intros Hkey. rewrite (checkApiKey_pass _ _ Hkey).
    unfold alertsHandler, tryOr. split; [|split].
    + intros geoResponse first others -> Hok Hjson Hfail. simpl.
      rewrite Hok, Hjson. simpl.
      destruct (oneCall _ _) as [alertsResponse|e]; simpl; [|eauto].
      destruct Hfail as [Hnok|[e He]]; [rewrite Hnok; simpl; eauto|].
      rewrite He. destruct (ok alertsResponse); simpl; eauto.
    + intros [[e ->]|(geoResponse & e & -> & Hok & Hjson)]; simpl; [eauto|].
      rewrite Hok, Hjson. simpl. eauto.
    + intros geoResponse -> [Hnok|Hjson]; simpl.
      * by rewrite Hnok.
      * rewrite Hjson. by destruct (ok geoResponse).
Qed.

(** C9 (amended). With a key configured, the suggestions endpoint always
    answers 200, with an empty array when the query is shorter than 2
    characters or when the upstream lookup fails; without a key it
    answers 500. *)
Theorem suggestionsRoute_200_with_key (apiKey : option string) (query : string)
    (upstream : Outcome (UpstreamResponse (list GeoItem))) :
  let reply := suggestionsRoute apiKey query upstream in
  (hasApiKey apiKey = false → code reply = 500)
  ∧ (hasApiKey apiKey = true →
     code reply = 200
     ∧ ((String.length query < 2)%nat → sent reply = inr [])
     ∧ (upstreamFailed upstream → sent reply = inr [])).
Proof.
  intros reply. subst reply. unfold suggestionsRoute. split.
  - apply checkApiKey_refuse.
  - intros Hkey. rewrite (checkApiKey_pass _ _ Hkey).
    unfold suggestionsHandler, tryOr. split; [|split].
    + case_decide; [done|]. destruct upstream as [response|e]; simpl; [|done].
      destruct (ok response); simpl; [|done].
      by destruct (readJson response).
    + intros Hshort. by rewrite decide_True.
    + intros Hfail. case_decide; [done|].
      destruct upstream as [response|e]; simpl; [|done].
      destruct Hfail as [Hnok|[e He]]; [by rewrite Hnok|].
      rewrite He. by destruct (ok response).
Qed.

End ServerFacts.

Lemma weatherRoute_status_mapping_witness :
  Server.weatherRoute (Some "k") "London"
    (Normal {| Server.status := 404; Server.body := Server.Body "not found" (None : option CurrentWeather) |})
  = {| Server.code := 404;
       Server.sent := inl {| Server.error := "City not found";
                             Server.error_message :=
                               "Could not find weather data for London" |} |}.
Proof.
  destruct (weatherRoute_status_mapping (A := CurrentWeather) (Some "k") "London"
              (Normal {| Server.status := 404;
                         Server.body := Server.Body "not found" None |}))
    as [_ H].
  destruct (H eq_refl) as (H404 & _).
  exact (H404 _ _ _ eq_refl eq_refl eq_refl).
Defined.

(** C8 as stated fails: an upstream authorization failure (status 401) is
    answered with 404 "City not found", not with 500. *)
Lemma weatherRoute_unauthorized_is_404 :
  let reply := Server.weatherRoute (Some "k") "London"
                 (Normal (Samples.invalidKey CurrentWeather)) in
  Server.status (Samples.invalidKey CurrentWeather) = 401
  ∧ Server.code reply = 404
  ∧ Server.code reply ≠ 500
  ∧ Server.sent reply
    = inl {| Server.error := "City not found";
             Server.error_message := "Could not find weather data for London" |}.
Proof. repeat split; try reflexivity. discriminate. Qed.

Lemma alertsRoute_degrades_to_empty_witness :
  let reply := Server.alertsRoute (Some "k") "London"
                 (Normal Samples.geoLondon) Samples.oneCallUnauthorized in
  Server.code reply = 200
  ∧ ∃ answer, Server.sent reply = inr answer
              ∧ Server.ab_city answer = "London" ∧ Server.ab_alerts answer = [].
Proof.
  destruct (alertsRoute_degrades_to_empty (Some "k") "London"
              (Normal Samples.geoLondon) Samples.oneCallUnauthorized) as [_ H].
  destruct (H eq_refl) as (Hfail & _).
  apply (Hfail _ _ _ eq_refl eq_refl eq_refl).
  left. reflexivity.
Defined.

(** C7 as stated fails: with the alerts resource unauthorized, the
    endpoint answers 404 for a city the geocoder does not know, and 500
    when no key is configured. *)
Lemma alertsRoute_hard_errors :
  Server.upstreamFailed (Samples.oneCallUnauthorized 0 0)
  ∧ Server.code (Server.alertsRoute (Some "k") "Qwxyzzy"
                   (Normal Samples.geoNoMatch) Samples.oneCallUnauthorized) = 404
  ∧ Server.code (Server.alertsRoute None "London"
                   (Normal Samples.geoLondon) Samples.oneCallUnauthorized) = 500.
Proof. split; [by left|]. split; reflexivity. Qed.

Lemma suggestionsRoute_200_with_key_witness :
  let reply := Server.suggestionsRoute (Some "k") "L" (Normal Samples.geoLondon) in
  Server.code reply = 200 ∧ Server.sent reply = inr [].
Proof.
  destruct (suggestionsRoute_200_with_key (Some "k") "L" (Normal Samples.geoLondon))
    as [_ H].
  destruct (H eq_refl) as (Hcode & Hshort & _).
  split; [exact Hcode|]. apply Hshort. simpl. lia.
Defined.

(** C9 as stated fails: without a key the endpoint answers 500. *)
Lemma suggestionsRoute_500_without_key :
  let reply := Server.suggestionsRoute None "Lon" (Normal Samples.geoLondon) in
  Server.code reply = 500
  ∧ Server.sent reply
    = inl {| Server.error := "API key not configured";
             Server.error_message :=
               "OpenWeatherMap API key is not set on the server" |}.
Proof. split; reflexivity. Qed.

(** ** Tile coordinates *)

Section TileFacts.
Import TileMapper.
Local Open Scope R_scope.





End TileFacts.

(** ** Demo mode *)

Lemma floor_scaled (r : Q) (n : Z) :
  (0 <= r)%Q → (r < 1)%Q → 0 < n → 0 ≤ JSMath.floor (r * inject_Z n) < n.
Proof.
  intros Hge Hlt Hn. unfold JSMath.floor.
  assert (Hn' : (inject_Z 0 < inject_Z n)%Q) by (by rewrite <- Zlt_Qlt).
  change (inject_Z 0) with 0%Q in Hn'.
  split.
  - change 0 with (Qfloor 0). apply Qfloor_resp_le. Lqa.nra.
  - rewrite Zlt_Qlt.
    eapply Qle_lt_trans; [apply Qfloor_le|]. Lqa.nra.
Qed.

Section DemoFacts.
Variable Date_now : nat -> Z.
Variable Math_random : nat -> Q.

(** [Math.random()] returns a number in [0, 1). *)
Hypothesis random_range : ∀ k, (0 <= Math_random k)%Q ∧ (Math_random k < 1)%Q.
(** The clock does not go backwards, and its readings are time values at
    least a day before the end of the range of Dates. *)
Hypothesis clock_monotone : ∀ k, Date_now k ≤ Date_now (S k).
Hypothesis clock_range : ∀ k, 0 ≤ Date_now k ≤ maxTimeValue - msPerDay.

Lemma sampleHourlyEntry_time (i : Z) (w : World) :
  1 ≤ i ≤ 24 →
  sh_time (sampleHourlyEntry Date_now Math_random i w).1
  = Some (Date_now (clockReads w) + i * (60 * 60 * 1000)).
Proof.
  intros Hi. simpl. unfold newDate.
  pose proof (clock_range (clockReads w)) as Hc.
  unfold maxTimeValue, msPerDay in Hc.
  rewrite decide_True by (unfold maxTimeValue; lia).
  f_equal. lia.
Qed.

Lemma sampleHourlyEntry_range (i : Z) (w : World) :
  entryInRange (sampleHourlyEntry Date_now Math_random i w).1.
Proof.
  unfold entryInRange. simpl.
  pose proof (floor_scaled _ 10 (proj1 (random_range (randomDraws w)))
                (proj2 (random_range (randomDraws w))) eq_refl) as H1.
  pose proof (floor_scaled _ 30
                (proj1 (random_range (S (S (S (randomDraws w))))))
                (proj2 (random_range (S (S (S (randomDraws w)))))) eq_refl) as H4.
  pose proof (floor_scaled _ 15
                (proj1 (random_range (S (S (S (S (randomDraws w)))))))
                (proj2 (random_range (S (S (S (S (randomDraws w))))))) eq_refl) as H5.
  unfold JSMath.floor in H1, H4, H5. simpl in H1, H4, H5.
  lia.
Qed.

Lemma sampleHourlyEntry_clock (i : Z) (w : World) :
  clockReads (sampleHourlyEntry Date_now Math_random i w).2 = S (clockReads w).
Proof. reflexivity. Qed.

Lemma sampleHourlyLoop_S (n : nat) (i : Z) (acc : list SampleHourly) (w : World) :
  sampleHourlyLoop Date_now Math_random (S n) i acc w
  = sampleHourlyLoop Date_now Math_random n (i + 1)
      (acc ++ [(sampleHourlyEntry Date_now Math_random i w).1])
      (sampleHourlyEntry Date_now Math_random i w).2.
Proof.
  cbn [sampleHourlyLoop]. unfold mbind at 1, Gen_bind at 1.
  by destruct (sampleHourlyEntry Date_now Math_random i w).
Qed.

Lemma sampleHourlyLoop_invariant (n : nat) :
  ∀ (i : Z) (acc : list SampleHourly) (w : World) (times : list Z),
    1 ≤ i → i + Z.of_nat n = 25 →
    sh_time <$> acc = Some <$> times →
    StronglySorted Z.lt times →
    Forall (fun t => t < Date_now (clockReads w) + i * (60 * 60 * 1000)) times →
    Forall (hourAfterClock Date_now) times →
    Forall entryInRange acc →
    let out := (sampleHourlyLoop Date_now Math_random n i acc w).1 in
    length out = (length acc + n)%nat
    ∧ (∃ times', sh_time <$> out = Some <$> times'
                 ∧ StronglySorted Z.lt times'
                 ∧ Forall (hourAfterClock Date_now) times')
    ∧ Forall entryInRange out.
Proof.
  induction n as [|n IH]; intros i acc w times Hi Hn Htimes Hsorted Hbelow Hhour Hrange.
  - simpl. split; [lia|]. split; [|done]. by exists times.
  - intros out. subst out. rewrite sampleHourlyLoop_S.
    pose proof (sampleHourlyEntry_time i w ltac:(lia)) as Ht.
    pose proof (sampleHourlyEntry_range i w) as Hr.
    pose proof (sampleHourlyEntry_clock i w) as Hc.
    set (entry := (sampleHourlyEntry Date_now Math_random i w).1) in *.
    set (w' := (sampleHourlyEntry Date_now Math_random i w).2) in *.
    clearbody entry w'.
    set (t0 := Date_now (clockReads w) + i * (60 * 60 * 1000)) in *.
    destruct (IH (i + 1) (acc ++ [entry]) w' (times ++ [t0])) as (Hlen & Hex & Hall).
    + lia.
    + lia.
    + rewrite !fmap_app, Htimes. cbn [fmap list_fmap]. by rewrite Ht.
    + apply StronglySorted_app_2; [|done|by repeat constructor].
      intros x1 x2 Hx1 ->%list_elem_of_singleton.
      rewrite Forall_forall in Hbelow. by apply Hbelow.
    + rewrite Hc. pose proof (clock_monotone (clockReads w)) as Hm.
      apply Forall_app. split.
      * eapply Forall_impl; [exact Hbelow|]. simpl. intros t Hlt.
        subst t0. lia.
      * apply Forall_singleton. subst t0.
        change (60 * 60 * 1000) with 3600000. lia.
    + apply Forall_app. split; [done|]. apply Forall_singleton.
      exists (clockReads w), i. split; [lia|done].
    + apply Forall_app. split; [done|]. by apply Forall_singleton.
    + rewrite length_app in Hlen. simpl in Hlen. split; [lia|]. by split.
Qed.

(** C10. Whatever the random source returns within [0, 1), and for a
    clock that does not go backwards, the hourly dataset of demo mode
    holds exactly 24 entries; their timestamps are valid, strictly
    increasing, each a clock reading plus a whole number of hours; every
    temperature is an integer in [15, 24], every humidity an integer in
    [50, 79] and every wind speed an integer in [5, 19]. *)
Theorem demoSampleHourly_in_range (w : World) :
  let sampleHourly := (demoSampleHourly Date_now Math_random w).1 in
  length sampleHourly = 24%nat
  ∧ (∃ times, sh_time <$> sampleHourly = Some <$> times
              ∧ StronglySorted Z.lt times
              ∧ Forall (fun t => ∃ k h, 1 ≤ h ≤ 24
                                        ∧ t = Date_now k + h * (60 * 60 * 1000)) times)
  ∧ Forall (fun e => 15 ≤ sh_temp e ≤ 24
                     ∧ 50 ≤ sh_humidity e ≤ 79
                     ∧ 5 ≤ sh_windSpeed e ≤ 19) sampleHourly.
Proof.
  unfold demoSampleHourly.
  apply (sampleHourlyLoop_invariant 24 1 [] w []); try done; constructor.
Qed.

End DemoFacts.

Lemma demoSampleHourly_in_range_witness :
  let sampleHourly :=
    (demoSampleHourly Samples.clock0 Samples.draws0
       {| clockReads := 8; randomDraws := 0 |}).1 in
  length sampleHourly = 24%nat
  ∧ Forall (fun e => 15 ≤ sh_temp e ≤ 24
                     ∧ 50 ≤ sh_humidity e ≤ 79
                     ∧ 5 ≤ sh_windSpeed e ≤ 19) sampleHourly.
Proof.
  destruct (demoSampleHourly_in_range Samples.clock0 Samples.draws0)
    with (w := {| clockReads := 8; randomDraws := 0 |}) as (Hlen & _ & Hall).
  - intros k. unfold Samples.draws0, Qle, Qlt. simpl.
    pose proof (Nat.mod_upper_bound k 10). lia.
  - intros k. unfold Samples.clock0. lia.
  - intros k. unfold Samples.clock0, Samples.now0, maxTimeValue, msPerDay. lia.
  - split; [exact Hlen|exact Hall].
Defined.

(** * Further properties *)

(** ** Order and size of the reduced views *)

Lemma StronglySorted_sublist {A : Type} (R : relation A) (k l : list A) :
  k `sublist_of` l → StronglySorted R l → StronglySorted R k.
Proof.
  induction 1 as [|x k l Hsub IH|x k l Hsub IH]; intros Hsorted.
  - constructor.
  - apply StronglySorted_cons in Hsorted as [Hall Hl].
    apply StronglySorted_cons. split; [|by apply IH].
    rewrite Forall_forall in Hall. apply Forall_forall. intros y Hy.
    apply Hall. by eapply elem_of_sublist.
  - apply StronglySorted_cons in Hsorted as [_ Hl]. by apply IH.
Qed.

Section ReducerOrder.
Variable LocalTZA : Z -> Z.

Lemma strictly_ascending_days (l : list ForecastItem) :
  StronglySorted (fun a b => dt a ≤ dt b) l →
  NoDup (dayKeyOf LocalTZA <$> l) →
  StronglySorted (fun a b => dt a < dt b) l.
Proof.
  induction 1 as [|a l Hsorted IH Hall]; intros Hnodup; [constructor|].
  rewrite fmap_cons in Hnodup. apply NoDup_cons in Hnodup as [Hfresh Hnodup].
  constructor; [by apply IH|].
  rewrite Forall_forall in Hall. apply Forall_forall. intros b Hb.
  destruct (decide (dt a = dt b)) as [Heq|Hne].
  - exfalso. apply Hfresh. apply list_elem_of_fmap. exists b. split; [|done].
    unfold dayKeyOf, itemDate. by rewrite Heq.
  - specialize (Hall b Hb). simpl in Hall. lia.
Qed.

(** X1. When the samples arrive in ascending time order, the daily view
    is built from a subsequence of them whose timestamps are strictly
    increasing: days come out in chronological order, none twice. *)
Theorem processForecastData_chronological (data : ForecastData) :
  StronglySorted (fun a b => dt a ≤ dt b) (list_ data) →
  ∃ firsts,
    firsts `sublist_of` list_ data
    ∧ processForecastData LocalTZA data = dailyOf <$> firsts
    ∧ StronglySorted (fun a b => dt a < dt b) firsts.
Proof.
  intros Hsorted.
  exists (take 5 (firstOfEachDay LocalTZA ∅ (list_ data))).
  assert (Hsub : take 5 (firstOfEachDay LocalTZA ∅ (list_ data))
                 `sublist_of` list_ data).
  { etrans; [apply sublist_take|apply firstOfEachDay_sublist]. }
  split; [exact Hsub|]. split.
  - by rewrite processForecastData_eq, fmap_take.
  - apply strictly_ascending_days.
    + by eapply StronglySorted_sublist.
    + eapply sublist_NoDup;
        [apply (firstOfEachDay_NoDup LocalTZA (list_ data) ∅)|].
      apply fmap_sublist, sublist_take.
Qed.

End ReducerOrder.

Lemma processForecastData_chronological_witness :
  ∃ firsts,
    processForecastData Samples.tzKolkata Samples.forecast0 = dailyOf <$> firsts
    ∧ StronglySorted (fun a b => dt a < dt b) firsts.
Proof.
  destruct (processForecastData_chronological Samples.tzKolkata Samples.forecast0)
    as (firsts & _ & Hout & Hsorted).
  - unfold Samples.forecast0, Samples.mkItem. simpl.
    repeat (constructor; [|by repeat (constructor; [simpl; lia|])]).
    constructor.
  - by exists firsts.
Defined.

Section HourlySize.
Variable now : Z.

Lemma spaced_in_window (l : list ForecastItem) :
  ∀ lo,
    StronglySorted (fun a b => dt a + 10800 ≤ dt b) l →
    Forall (fun a => lo < dt a * 1000 ≤ now + 86400000) l →
    l = [] ∨ (Z.of_nat (length l) - 1) * 10800000 ≤ now + 86400000 - lo - 1.
Proof.
  induction l as [|a l IH]; intros lo Hsorted Hwin; [by left|]. right.
  apply StronglySorted_cons in Hsorted as [Hall Hsorted].
  apply Forall_cons in Hwin as [Ha Hwin].
  destruct (IH (lo + 10800000) Hsorted) as [->|Hlen].
  - rewrite Forall_forall in Hall, Hwin. apply Forall_forall. intros b Hb.
    specialize (Hall b Hb). specialize (Hwin b Hb). simpl in Hall. lia.
  - simpl. lia.
  - rewrite length_cons. lia.
Qed.

(** X2. When the samples are in ascending order and at least three hours
    apart, as the upstream forecast delivers them, at most 8 of them fall
    in the next 24 hours: the hourly view holds at most 8 entries, and the
    cut at 24 never removes one. *)
Theorem processHourlyData_three_hour_steps (data : ForecastData) :
  StronglySorted (fun a b => dt a + 10800 ≤ dt b) (list_ data) →
  (length (processHourlyData now data) ≤ 8)%nat
  ∧ processHourlyData now data
    = hourlyOf <$> filter (fun item => inNext24h now item) (list_ data).
Proof.
  intros Hspaced. unfold processHourlyData. rewrite fold_hourlyStep. simpl.
  set (qualifying := filter (fun item => inNext24h now item) (list_ data)).
  assert (Hlen : (length qualifying ≤ 8)%nat).
  { destruct (spaced_in_window qualifying now) as [->|Hlen]; [| |simpl; lia|lia].
    - eapply StronglySorted_sublist; [apply sublist_filter|done].
    - apply Forall_forall. intros item [Hq _]%list_elem_of_filter.
      apply inNext24h_window in Hq as (t & Ht & Hwin).
      unfold itemDate, newDate in Ht. case_decide; [|done].
      simplify_eq. lia. }
  rewrite take_ge by (rewrite length_fmap; lia).
  split; [by rewrite length_fmap|done].
Qed.

End HourlySize.

Lemma processHourlyData_three_hour_steps_witness :
  (length (processHourlyData Samples.now0 Samples.forecast0) ≤ 8)%nat.
Proof.
  destruct (processHourlyData_three_hour_steps Samples.now0 Samples.forecast0)
    as [Hlen _]; [|exact Hlen].
  unfold Samples.forecast0, Samples.mkItem. simpl.
  repeat (constructor; [|by repeat (constructor; [simpl; lia|])]).
  constructor.
Defined.

(** ** Outcome of a search *)

Lemma orString_nonempty (a : option string) (b : string) :
  b ≠ "" → orString a b ≠ "".
Proof.
  intros Hb. unfold orString. destruct a as [text|]; [|done].
  by case_decide.
Qed.

Section SearchOutcome.
Variable LocalTZA : Z -> Z.
Variable toLowerCase : string -> string.
Variable now : Z.

Lemma fetchCurrentWeather_throws (net : Network) (city : string) (s : Dashboard) :
  settledJson (weatherFetch net) = None →
  ∃ e, fetchCurrentWeather net city s
       = (Throw e, logRequest (GetWeather city) s).
Proof.
  unfold fetchCurrentWeather, settledJson.
  destruct (weatherFetch net) as [[[a|e]|[ed|e]]|e] eqn:H; intros [=];
    cbv [fetch mbind Eff_bind modify await throw]; eauto.
Qed.

(** X3. When the current-conditions fetch fails, the search stops at
    once: the weather request is the only request sent, a non-empty
    message is shown in the current-weather and forecast panels, and the
    other panels, the history (in memory, stored and rendered) and the
    current city are left as they were. *)
Theorem searchWeather_current_failure_stops (net : Network) (city : string)
    (s : Dashboard) :
  settledJson (weatherFetch net) = None →
  let s' := (searchWeather LocalTZA toLowerCase now net city s).2 in
  (∃ msg, msg ≠ "" ∧ currentPanel s' = ErrorPanel msg
          ∧ forecastPanel s' = ErrorPanel msg)
  ∧ requests s' = requests s ++ [GetWeather city]
  ∧ hourlyPanel s' = hourlyPanel s
  ∧ airQualityPanel s' = airQualityPanel s
  ∧ alertsPanel s' = alertsPanel s
  ∧ searchHistory s' = searchHistory s
  ∧ storedHistory s' = storedHistory s
  ∧ historyPanel s' = historyPanel s
  ∧ currentCity s' = currentCity s.
Proof.
  intros Hfail s'. subst s'.
  unfold searchWeather, searchWeatherTry, tryCatch.
  cbv [mbind Eff_bind showLoading modify].
  match goal with
  | |- context [fetchCurrentWeather net city ?s0] =>
      destruct (fetchCurrentWeather_throws net city s0 Hfail) as [e He]
  end.
  rewrite He. simpl. split; [|done].
  eexists. split; [|done]. by apply (orString_nonempty (Some (message e))).
Qed.


End SearchOutcome.

Lemma searchWeather_current_failure_stops_witness :
  let net := {| weatherFetch := Throw {| message := "" |};
                forecastFetch := forecastFetch Samples.extrasDown;
                hourlyFetch := hourlyFetch Samples.extrasDown;
                airQualityFetch := airQualityFetch Samples.extrasDown;
                alertsFetch := alertsFetch Samples.extrasDown |} in
  let s' := (searchWeather Samples.tzKolkata Samples.asciiToLowerCase
               Samples.now0 net "Qwxyzzy" (newDashboard None)).2 in
  currentPanel s' = ErrorPanel "Failed to fetch weather data. Please try again."
  ∧ requests s' = [GetWeather "Qwxyzzy"].
Proof.
  intros net.
  destruct (searchWeather_current_failure_stops Samples.tzKolkata
              Samples.asciiToLowerCase Samples.now0 net "Qwxyzzy"
              (newDashboard None)) as (_ & Hreq & _).
  - reflexivity.
  - split; [reflexivity|exact Hreq].
Defined.

(** ** The recency list over a session *)

Section RecencyFacts.
Variable toLowerCase : string -> string.

Lemma distinctCities_NoDup (l : list string) :
  NoDup (toLowerCase <$> distinctCities toLowerCase l).
Proof.
  induction l as [|city rest IH]; [constructor|].
  cbn [distinctCities]. by apply filter_other_NoDup.
Qed.

Lemma distinctCities_id (l : list string) :
  NoDup (toLowerCase <$> l) → distinctCities toLowerCase l = l.
Proof.
  induction l as [|city rest IH]; intros Hnodup; [done|].
  rewrite fmap_cons in Hnodup. apply NoDup_cons in Hnodup as [Hfresh Hrest].
  cbn [distinctCities]. rewrite IH by done. by rewrite filter_absent.
Qed.

Lemma filter_other_length (l : list string) (city : string) :
  NoDup (toLowerCase <$> l) →
  (length l ≤ S (length (filter (fun item : string => toLowerCase item ≠ toLowerCase city) l)))%nat.
Proof.
  intros Hnodup.
  destruct (decide (toLowerCase city ∈ toLowerCase <$> l)) as [Hin|Hout].
  - by rewrite (filter_present_length toLowerCase l city Hnodup Hin).
  - rewrite (filter_absent toLowerCase l city Hout). lia.
Qed.

Lemma take_filter_take (l : list string) (city : string) :
  NoDup (toLowerCase <$> l) →
  take 9 (filter (fun item : string => toLowerCase item ≠ toLowerCase city) (take 10 l)) = take 9 (filter (fun item : string => toLowerCase item ≠ toLowerCase city) l).
Proof.
  intros Hnodup.
  destruct (decide (length l ≤ 10)%nat) as [Hshort|Hlong].
  - by rewrite (take_ge l 10).
  - rewrite <- (take_drop 10 l) at 2. rewrite filter_app.
    rewrite take_app_le; [done|].
    assert (Hten : length (take 10 l) = 10%nat) by (rewrite length_take; lia).
    pose proof (filter_other_length (take 10 l) city) as Hlen.
    rewrite Hten in Hlen. apply le_S_n, Hlen.
    eapply sublist_NoDup; [exact Hnodup|]. apply fmap_sublist, sublist_take.
Qed.

(** X5. Starting from a history that satisfies the invariant, after any
    sequence of searches the history is exactly the ten most recent
    distinct cities, most recent first: the searches in reverse order
    followed by the old history, each city kept once at its most recent
    position and spelling, cut at ten.  In particular it satisfies the
    invariant again. *)
Theorem addCities_ten_most_recent (history cities : list string) :
  historyInvariant toLowerCase history →
  addCities toLowerCase history cities
  = take 10 (distinctCities toLowerCase (reverse cities ++ history))
  ∧ historyInvariant toLowerCase (addCities toLowerCase history cities).
Proof.
  intros [Hlen Hnodup].
  assert (Heq : addCities toLowerCase history cities
                = take 10 (distinctCities toLowerCase (reverse cities ++ history))).
  { induction cities as [|city cities IH] using rev_ind.
    - simpl. rewrite distinctCities_id by done. by rewrite take_ge.
    - unfold addCities in *. rewrite fold_left_app. simpl. rewrite IH.
      rewrite reverse_snoc. cbn [app distinctCities].
      rewrite addCity_unfold.
      change (take 10 (city :: ?l)) with (city :: take 9 l).
      f_equal. apply take_filter_take, distinctCities_NoDup. }
  split; [exact Heq|]. rewrite Heq. split.
  - rewrite length_take. lia.
  - eapply sublist_NoDup; [apply distinctCities_NoDup|].
    apply fmap_sublist, sublist_take.
Qed.

(** X6. Searching again for the city that was searched last, in any
    letter case, changes nothing but the spelling of the first entry; with
    the same spelling the history is unchanged.  This holds for every
    history, whether it satisfies the invariant or not. *)
Theorem addCity_again (history : list string) (city again : string) :
  toLowerCase again = toLowerCase city →
  addCity toLowerCase (addCity toLowerCase history city) again
  = again :: tail (addCity toLowerCase history city).
Proof.
  intros Hsame. rewrite !addCity_unfold.
  change (take 10 (city :: ?l)) with (city :: take 9 l).
  change (take 10 (again :: ?l)) with (again :: take 9 l).
  cbn [tail]. f_equal.
  rewrite filter_cons_False by (intros Hne; by apply Hne).
  rewrite (list_filter_iff (fun item : string => toLowerCase item ≠ toLowerCase again) (fun item : string => toLowerCase item ≠ toLowerCase city))
    by (intros item; by rewrite Hsame).
  set (kept := filter (fun item : string => toLowerCase item ≠ toLowerCase city) history).
  assert (Hall : Forall (fun item : string => toLowerCase item ≠ toLowerCase city) (take 9 kept)).
  { apply Forall_take, Forall_forall.
    by intros item [Hne _]%list_elem_of_filter. }
  assert (Hid : filter (fun item : string => toLowerCase item ≠ toLowerCase city) (take 9 kept) = take 9 kept).
  { induction Hall as [|x l Hx Hl IH]; [done|].
    by rewrite filter_cons_True, IH. }
  rewrite Hid. apply take_ge. rewrite length_take. lia.
Qed.

End RecencyFacts.

Lemma addCities_ten_most_recent_witness :
  addCities Samples.asciiToLowerCase ["Oslo"; "paris"]
    ["Rome"; "Paris"; "Lima"; "ROME"]
  = ["ROME"; "Lima"; "Paris"; "Oslo"].
Proof.
  destruct (addCities_ten_most_recent Samples.asciiToLowerCase
              ["Oslo"; "paris"] ["Rome"; "Paris"; "Lima"; "ROME"]) as [Heq _].
  - split; [simpl; lia|compute_done].
  - rewrite Heq. reflexivity.
Defined.

Lemma addCity_again_witness :
  addCity Samples.asciiToLowerCase
    (addCity Samples.asciiToLowerCase ["Oslo"; "Rome"] "london") "London"
  = ["London"; "Oslo"; "Rome"].
Proof.
  rewrite (addCity_again Samples.asciiToLowerCase ["Oslo"; "Rome"]
             "london" "London"); reflexivity.
Defined.

(** ** Display helpers *)

(** X7. The air-quality label is "Unknown", and the colour the neutral
    grey, exactly when the index is outside 1..5; inside that range the
    five labels are pairwise different, and 2 is "Fair". *)
Theorem aqiScale_levels (aqi : Z) :
  (aqiText aqi = "Unknown" ↔ ¬ (1 ≤ aqi ≤ 5))
  ∧ (aqiColor aqi = "#9E9E9E" ↔ ¬ (1 ≤ aqi ≤ 5))
  ∧ (∀ other, 1 ≤ aqi ≤ 5 → 1 ≤ other ≤ 5 →
              aqiText aqi = aqiText other → aqi = other)
  ∧ aqiText 2 = "Fair".
Proof.
  assert (Hcases : aqi = 1 ∨ aqi = 2 ∨ aqi = 3 ∨ aqi = 4 ∨ aqi = 5
                   ∨ ¬ (1 ≤ aqi ≤ 5)) by lia.
  split; [|split; [|split; [|done]]].
  - destruct Hcases as [->|[->|[->|[->|[->|Hout]]]]];
      try (split; [by intros [=]|intros Hno; exfalso; apply Hno; lia]).
    split; [done|]. intros _. unfold aqiText, aqiScale.
    repeat (rewrite decide_False by lia). done.
  - destruct Hcases as [->|[->|[->|[->|[->|Hout]]]]];
      try (split; [by intros [=]|intros Hno; exfalso; apply Hno; lia]).
    split; [done|]. intros _. unfold aqiColor, aqiScale.
    repeat (rewrite decide_False by lia). done.
  - intros other Hin Hother.
    assert (Hc : other = 1 ∨ other = 2 ∨ other = 3 ∨ other = 4 ∨ other = 5)
      by lia.
    destruct Hcases as [->|[->|[->|[->|[->|Hout]]]]]; [..|done];
      destruct Hc as [-> | [-> | [-> | [-> | ->]]]]; by intros [=].
Qed.


(** X9. With a draw in [0, 1) the simulated UV index is an integer in
    [0, 10] and its bar is narrower than 100 percent.  Outside the hours
    10 to 16 it is 0 or 1 and the level is "Low"; between them a clear
    sky gives 3 to 10 and never "Low", clouds give 2 to 6 and never
    "Very High", any other weather gives 1 to 3. *)
Theorem updateUVIndex_ranges (hour : Z) (weatherMain : string) (random : Q) :
  (0 <= random)%Q → (random < 1)%Q →
  let uv := updateUVIndex hour weatherMain random in
  0 ≤ uvValue uv ≤ 10
  ∧ (0 <= uvBarWidth uv)%Q ∧ (uvBarWidth uv < 100)%Q
  ∧ (¬ (10 ≤ hour ∧ hour ≤ 16) → 0 ≤ uvValue uv ≤ 1 ∧ uvLevel uv = "Low")
  ∧ (10 ≤ hour ∧ hour ≤ 16 → weatherMain = "Clear" →
     3 ≤ uvValue uv ≤ 10 ∧ uvLevel uv ≠ "Low")
  ∧ (10 ≤ hour ∧ hour ≤ 16 → weatherMain = "Clouds" →
     2 ≤ uvValue uv ≤ 6 ∧ uvLevel uv ≠ "Very High")
  ∧ (10 ≤ hour ∧ hour ≤ 16 → weatherMain ≠ "Clear" → weatherMain ≠ "Clouds" →
     1 ≤ uvValue uv ≤ 3).
Proof.
  intros Hge Hlt uv.
  pose proof (floor_scaled random 8 Hge Hlt eq_refl) as H8.
  pose proof (floor_scaled random 5 Hge Hlt eq_refl) as H5.
  pose proof (floor_scaled random 3 Hge Hlt eq_refl) as H3.
  pose proof (floor_scaled random 2 Hge Hlt eq_refl) as H2.
  unfold JSMath.floor in H8, H5, H3, H2. simpl in H8, H5, H3, H2.
  assert (Hvalue : 0 ≤ uvValue uv ≤ 10
            ∧ (¬ (10 ≤ hour ∧ hour ≤ 16) → 0 ≤ uvValue uv ≤ 1 ∧ uvLevel uv = "Low")
            ∧ (10 ≤ hour ∧ hour ≤ 16 → weatherMain = "Clear" →
               3 ≤ uvValue uv ≤ 10 ∧ uvLevel uv ≠ "Low")
            ∧ (10 ≤ hour ∧ hour ≤ 16 → weatherMain = "Clouds" →
               2 ≤ uvValue uv ≤ 6 ∧ uvLevel uv ≠ "Very High")
            ∧ (10 ≤ hour ∧ hour ≤ 16 → weatherMain ≠ "Clear" →
               weatherMain ≠ "Clouds" → 1 ≤ uvValue uv ≤ 3)).
  { subst uv. unfold updateUVIndex.
    destruct (decide (10 ≤ hour ∧ hour ≤ 16)) as [Hday|Hnight];
      [destruct (decide (weatherMain = "Clear")) as [Hclear|Hclear];
         [|destruct (decide (weatherMain = "Clouds")) as [Hclouds|Hclouds]]|];
      unfold JSMath.floor; simpl;
      repeat case_decide; simpl; repeat split; intros; try done; try lia;
        try (exfalso; lia); congruence. }
  destruct Hvalue as (Hrange & Hrest).
  split; [exact Hrange|]. split; [|split; [|exact Hrest]].
  - unfold uvBarWidth.
    assert (Hz : (inject_Z 0 <= inject_Z (uvValue uv))%Q)
      by (rewrite <- Zle_Qle; lia).
    change (inject_Z 0) with 0%Q in Hz.
    apply Qmult_le_0_compat; [|done]. by apply Qle_shift_div_l.
  - unfold uvBarWidth.
    assert (Hz : (inject_Z (uvValue uv) <= inject_Z 10)%Q)
      by (rewrite <- Zle_Qle; lia).
    change (inject_Z 10) with 10%Q in Hz.
    assert (Hdiv : (inject_Z (uvValue uv) / 11 <= 10 / 11)%Q).
    { apply Qmult_le_compat_r; [done|]. by compute. }
    assert (Hm : (inject_Z (uvValue uv) / 11 * 100 <= 10 / 11 * 100)%Q).
    { by apply Qmult_le_compat_r. }
    eapply Qle_lt_trans; [exact Hm|]. reflexivity.
Qed.

Lemma updateUVIndex_ranges_witness :
  uvValue (updateUVIndex 12 "Clear" (7 # 8)) = 10
  ∧ uvLevel (updateUVIndex 12 "Clear" (7 # 8)) ≠ "Low".
Proof.
  destruct (updateUVIndex_ranges 12 "Clear" (7 # 8)) as (_ & _ & _ & _ & Hclear & _).
  - by compute.
  - by compute.
  - destruct Hclear as [_ Hlevel]; [lia|done|]. split; [reflexivity|exact Hlevel].
Defined.

(** X10. The clothing list holds between 2 and 5 items; an umbrella is
    suggested exactly in rain and boots exactly in snow; the texts are all
    different except below 5 degrees in snow, where "Gloves" is listed
    twice. *)
Theorem clothingSuggestions_shape (temperature : Q) (weather : string) :
  let texts := cl_text <$> clothingSuggestions temperature weather in
  (2 ≤ length texts ≤ 5)%nat
  ∧ ("Umbrella" ∈ texts ↔ weather = "Rain")
  ∧ ("Boots" ∈ texts ↔ weather = "Snow")
  ∧ (NoDup texts ↔ ¬ ((temperature < 5)%Q ∧ weather = "Snow")).
Proof.
  intros texts. subst texts. unfold clothingSuggestions.
  destruct (Qlt_le_dec temperature 5) as [Hcold|Hcold];
    [|destruct (Qlt_le_dec temperature 15) as [Hcool|Hcool];
      [|destruct (Qlt_le_dec temperature 25) as [Hmild|Hmild]]];
    (destruct (decide (weather = "Rain")) as [Hrain|Hrain];
     [subst weather
     |destruct (decide (weather = "Snow")) as [Hsnow|Hsnow]; [subst weather|]]);
    simpl;
    (split; [lia|]);
    (split; [split; [try done; intros Hin; exfalso; revert Hin; compute_done
                    |try done; intros _; compute_done]|]);
    (split; [split; [try done; intros Hin; exfalso; revert Hin; compute_done
                    |try done; intros _; compute_done]|]).
  all: first
    [ split;
      [ intros _ [Hlt Hw]; first [done | by apply (Qle_not_lt _ _ Hcold)]
      | intros _; compute_done ]
    | split;
      [ intros Hnodup; exfalso; revert Hnodup; compute_done
      | intros Hno; exfalso; by apply Hno ] ].
Qed.

Section Daylight.




End Daylight.

(** ** Demo data *)

Section DemoDataFacts.
Variable Date_now : nat -> Z.
Variable Math_random : nat -> Q.

Hypothesis random_range : ∀ k, (0 <= Math_random k)%Q ∧ (Math_random k < 1)%Q.
Hypothesis clock_monotone : ∀ k, Date_now k ≤ Date_now (S k).
Hypothesis clock_range : ∀ k, 0 ≤ Date_now k ≤ maxTimeValue - 5 * msPerDay.

(** X12. For a clock that does not go backwards, the demo forecast holds
    five entries whose dates are valid and strictly increasing: the k-th
    is k days after the k-th reading of the clock. *)
Theorem demoSampleForecast_dates (w : World) :
  let forecast := (demoSampleForecast Date_now w).1 in
  let reading (k : nat) := Date_now (clockReads w + k) in
  df_date <$> forecast
  = [ Some (reading 0%nat + 1 * msPerDay); Some (reading 1%nat + 2 * msPerDay);
      Some (reading 2%nat + 3 * msPerDay); Some (reading 3%nat + 4 * msPerDay);
      Some (reading 4%nat + 5 * msPerDay) ]
  ∧ StronglySorted Z.lt
      [ reading 0%nat + 1 * msPerDay; reading 1%nat + 2 * msPerDay;
        reading 2%nat + 3 * msPerDay; reading 3%nat + 4 * msPerDay;
        reading 4%nat + 5 * msPerDay ].
Proof.
  intros forecast reading. subst forecast reading.
  destruct w as [c r]. cbn [clockReads]. split.
  - unfold demoSampleForecast, sampleDay.
    cbv [mbind Gen_bind mret Gen_ret dateNow fst clockReads randomDraws
         fmap list_fmap df_date].
    rewrite !Nat.add_succ_r, Nat.add_0_r.
    unfold newDate, msPerDay, maxTimeValue in *.
    pose proof (clock_range c).
    pose proof (clock_range (S c)).
    pose proof (clock_range (S (S c))).
    pose proof (clock_range (S (S (S c)))).
    pose proof (clock_range (S (S (S (S c))))).
    change (1 * 24 * 60 * 60 * 1000) with 86400000.
    change (2 * 24 * 60 * 60 * 1000) with 172800000.
    change (3 * 24 * 60 * 60 * 1000) with 259200000.
    change (4 * 24 * 60 * 60 * 1000) with 345600000.
    change (5 * 24 * 60 * 60 * 1000) with 432000000.
    rewrite !decide_True by lia. repeat f_equal; lia.
  - rewrite !Nat.add_succ_r, Nat.add_0_r. unfold msPerDay.
    pose proof (clock_monotone c).
    pose proof (clock_monotone (S c)).
    pose proof (clock_monotone (S (S c))).
    pose proof (clock_monotone (S (S (S c)))).
    repeat (constructor; [|repeat (constructor; [lia|]); constructor]).
    constructor.
Qed.

Lemma sampleHourlyLoop_Forall (P : SampleHourly → Prop) :
  (∀ i w, P (sampleHourlyEntry Date_now Math_random i w).1) →
  ∀ n i acc w,
    Forall P acc → Forall P (sampleHourlyLoop Date_now Math_random n i acc w).1.
Proof.
  intros Hentry. induction n as [|n IH]; intros i acc w Hacc; [done|].
  rewrite sampleHourlyLoop_S. apply IH.
  apply Forall_app. split; [done|]. by apply Forall_singleton.
Qed.

Lemma arrayGet_three {A : Type} (a b c : A) (r : Q) :
  (0 <= r)%Q → (r < 1)%Q →
  ∃ x, arrayGet [a; b; c] (JSMath.floor (r * 3)%Q) = Some x ∧ x ∈ [a; b; c].
Proof.
  intros Hge Hlt.
  pose proof (floor_scaled r 3 Hge Hlt eq_refl) as Hk.
  change (inject_Z 3) with 3%Q in Hk.
  set (k := JSMath.floor (r * 3)%Q) in *.
  assert (Hcases : k = 0 ∨ k = 1 ∨ k = 2) by lia.
  destruct Hcases as [-> | [-> | ->]]; eexists; (split; [reflexivity|]);
    by repeat constructor.
Qed.

(** X13. Whatever the random source returns within [0, 1), no entry of
    the demo hourly data has an undefined description or icon: the
    description is one of the three texts and the icon one of the three
    glyphs of the tables they are read from. *)
Theorem demoSampleHourly_defined (w : World) :
  Forall (fun e =>
            (∃ text, sh_description e = Some text
                     ∧ text ∈ ["Sunny"; "Cloudy"; "Partly cloudy"])
            ∧ (∃ glyph, sh_icon e = Some glyph ∧ glyph ∈ ["☀️"; "☁️"; "⛅"]))
    (demoSampleHourly Date_now Math_random w).1.
Proof.
  unfold demoSampleHourly. apply sampleHourlyLoop_Forall; [|constructor].
  intros i w0. cbn [sampleHourlyEntry fst sh_description sh_icon
                    mbind Gen_bind mret Gen_ret dateNow mathRandom
                    randomDraws clockReads].
  split; apply arrayGet_three; apply random_range.
Qed.

End DemoDataFacts.

Lemma demoSampleForecast_dates_witness :
  df_date <$> (demoSampleForecast clock5
                 {| clockReads := 3; randomDraws := 0 |}).1
  = [ Some 1700086400003; Some 1700172800004; Some 1700259200005;
      Some 1700345600006; Some 1700432000007 ].
Proof.
  destruct (demoSampleForecast_dates clock5)
    with (w := {| clockReads := 3; randomDraws := 0 |}) as [Hdates _].
  - intros k. unfold clock5. lia.
  - intros k. unfold clock5, Samples.now0, maxTimeValue, msPerDay. lia.
  - rewrite Hdates. reflexivity.
Defined.

Lemma demoSampleHourly_defined_witness :
  Forall (fun e => ∃ text, sh_description e = Some text)
    (demoSampleHourly Samples.clock0 Samples.draws0
       {| clockReads := 8; randomDraws := 0 |}).1.
Proof.
  eapply Forall_impl.
  - apply (demoSampleHourly_defined Samples.clock0 Samples.draws0).
    intros k. unfold Samples.draws0, Qle, Qlt. simpl.
    pose proof (Nat.mod_upper_bound k 10). lia.
  - intros e [(text & Htext & _) _]. by exists text.
Defined.

(** ** Health check and map key *)



(** X15. [getApiKey] asks the server at most once per call and only
    while no key is held: a held key is returned without a request; a
    failed request returns null and leaves the field as it was, so that
    the next call asks again; a key once obtained is returned by every
    later call without a further request. *)
Theorem getApiKey_caching (first second : Outcome (Response ConfigData))
    (cache : KeyCache) :
  let r1 := getApiKey first cache in
  let r2 := getApiKey second r1.2 in
  (noKey (apiKey cache) = false → r1 = (apiKey cache, cache))
  ∧ (noKey (apiKey cache) = true →
     configRequests r1.2 = S (configRequests cache)
     ∧ (settledJson first = None → r1.1 = None ∧ apiKey r1.2 = apiKey cache)
     ∧ (∀ data, settledJson first = Some data →
                r1.1 = OPENWEATHER_API_KEY data
                ∧ apiKey r1.2 = OPENWEATHER_API_KEY data))
  ∧ (noKey r1.1 = false → r2 = (r1.1, r1.2)).
Proof.
  intros r1 r2. subst r1 r2. split; [|split].
  - intros Hheld. unfold getApiKey. by rewrite Hheld.
  - intros Hnone. unfold getApiKey. rewrite Hnone.
    destruct first as [[[data|e]|[ed|e]]|e]; simpl;
      (split; [done|split; [intros Hs|intros d Hs]]); by simplify_eq.
  - intros Hkey.
    assert (Hfield : apiKey (getApiKey first cache).2 = (getApiKey first cache).1).
    { unfold getApiKey in *. destruct (noKey (apiKey cache)); [|done].
      by destruct first as [[[data|e]|[ed|e]]|e]. }
    unfold getApiKey at 1. by rewrite Hfield, Hkey, <- Hfield.
Qed.

(** ** Further routes *)

Section RouteFacts.
Import Server Routes.

Lemma upstreamFailed_spec {A : Type} (upstream : Outcome (UpstreamResponse A)) :
  ¬ upstreamFailed upstream
  ↔ ∃ response data,
      upstream = Normal response ∧ ok response = true
      ∧ readJson response = Normal data.
Proof.
  unfold upstreamFailed. split.
  - intros Hnot. destruct upstream as [response|e]; [|by destruct Hnot].
    destruct (ok response) eqn:Hok; [|destruct Hnot; by left].
    destruct (readJson response) as [data|e] eqn:Hjson;
      [by exists response, data|].
    destruct Hnot. right. by exists e.
  - intros (response & data & -> & Hok & Hjson) [Hnok|[e He]]; congruence.
Qed.

(** X16. The forecast endpoint answers 200 exactly when a key is
    configured and the upstream request succeeded with a JSON body, and
    then relays that body unchanged; it answers 404 "Forecast not found"
    exactly when a key is configured and upstream answered with a
    non-success status and a readable body; every other case is 500. *)
Theorem forecastRoute_status {A : Type} (apiKey : option string) (city : string)
    (upstream : Outcome (UpstreamResponse A)) :
  let reply := forecastRoute apiKey city upstream in
  (code reply = 200 ↔ hasApiKey apiKey = true ∧ ¬ upstreamFailed upstream)
  ∧ (∀ data, sent reply = inr data →
             ∃ response, upstream = Normal response
                         ∧ readJson response = Normal data)
  ∧ (code reply = 404
     ↔ hasApiKey apiKey = true
       ∧ ∃ response text parsed,
           upstream = Normal response ∧ ok response = false
           ∧ body response = Body text parsed)
  ∧ (code reply = 404 →
     sent reply = inl {| error := "Forecast not found";
                         error_message :=
                           "Could not find forecast data for " ++ city |})
  ∧ (code reply = 200 ∨ code reply = 404 ∨ code reply = 500).
Proof.
  intros reply. subst reply. unfold forecastRoute, checkApiKey.
  rewrite upstreamFailed_spec.
  destruct (hasApiKey apiKey); [|simpl; naive_solver].
  unfold forecastHandler, tryOr, readText.
  destruct upstream as [response|e]; [|simpl; naive_solver].
  simpl. unfold readJson.
  destruct (ok response) eqn:Hok, (body response) as [e|text [data|]] eqn:Hbody;
    simpl; rewrite ?Hbody; simpl;
    repeat split; try done; try naive_solver.
  all: try (intros (_ & ? & ? & [= <-] & ? & ?); rewrite ?Hbody in *; congruence).
  all: try (intros (_ & ? & ? & ? & [= <-] & ? & ?); congruence).
  all: try (exists response, data; by rewrite Hbody).
  all: intros ? [= <-]; exists response; by rewrite Hbody.
Qed.

(** X17. A successful air-quality reply echoes the city and carries the
    coordinates of the first geocoding match together with the upstream
    data fetched for them.  Unlike the alerts endpoint, a failure of the
    second upstream request is not degraded: it is answered with 500; a
    geocoding answer with a non-success status or without a match is
    answered with 404. *)
Theorem airQualityRoute_status {A : Type} (apiKey : option string) (city : string)
    (geo : Outcome (UpstreamResponse (list GeoItem)))
    (airPollution : Q -> Q -> Outcome (UpstreamResponse A)) :
  let reply := airQualityRoute apiKey city geo airPollution in
  (∀ answer, sent reply = inr answer →
     code reply = 200 ∧ aqb_city answer = city
     ∧ ∃ geoResponse first others aqResponse,
         geo = Normal geoResponse
         ∧ readJson geoResponse = Normal (first :: others)
         ∧ aqb_lat answer = g_lat first ∧ aqb_lon answer = g_lon first
         ∧ airPollution (g_lat first) (g_lon first) = Normal aqResponse
         ∧ readJson aqResponse = Normal (aqb_airQuality answer))
  ∧ (hasApiKey apiKey = true →
     ∀ geoResponse first others,
       geo = Normal geoResponse → ok geoResponse = true →
       readJson geoResponse = Normal (first :: others) →
       upstreamFailed (airPollution (g_lat first) (g_lon first)) →
       code reply = 500)
  ∧ (hasApiKey apiKey = true →
     ∀ geoResponse,
       geo = Normal geoResponse →
       ok geoResponse = false ∨ readJson geoResponse = Normal [] →
       code reply = 404).
Proof.
  intros reply. subst reply. unfold airQualityRoute, checkApiKey.
  split; [|split].
  - destruct (hasApiKey apiKey); [|done].
    unfold airQualityHandler, tryOr.
    destruct geo as [geoResponse|e]; [|done]. simpl.
    destruct (ok geoResponse); [|done]. simpl.
    destruct (readJson geoResponse) as [[|first others]|e] eqn:Hgeo; try done.
    simpl.
    destruct (airPollution _ _) as [aqResponse|e] eqn:Hair; [|done]. simpl.
    destruct (ok aqResponse); [|done]. simpl.
    destruct (readJson aqResponse) as [aqData|e] eqn:Haq; [|done]. simpl.
    intros answer [= <-]. simpl. split; [done|]. split; [done|].
    by exists geoResponse, first, others, aqResponse.
  - intros -> geoResponse first others -> Hok Hjson Hfail.
    unfold airQualityHandler, tryOr. simpl. rewrite Hok, Hjson. simpl.
    destruct (airPollution _ _) as [aqResponse|e]; [|done]. simpl.
    destruct Hfail as [Hnok|[e He]]; [by rewrite Hnok|].
    rewrite He. by destruct (ok aqResponse).
  - intros -> geoResponse -> [Hnok|Hjson];
      unfold airQualityHandler, tryOr; simpl.
    + by rewrite Hnok.
    + rewrite Hjson. by destruct (ok geoResponse).
Qed.

(** X18. The geocoding endpoint never answers 404: the reply is 200,
    relaying the upstream list, exactly when a key is configured and the
    upstream request succeeded with a JSON body, and 500 otherwise. *)
Theorem geocodeRoute_status (apiKey : option string) (city : string)
    (upstream : Outcome (UpstreamResponse (list GeoItem))) :
  let reply := geocodeRoute apiKey city upstream in
  (code reply = 200 ↔ hasApiKey apiKey = true ∧ ¬ upstreamFailed upstream)
  ∧ (code reply = 200 ∨ code reply = 500)
  ∧ (∀ data, sent reply = inr data →
             ∃ response, upstream = Normal response
                         ∧ readJson response = Normal data).
Proof.
  intros reply. subst reply. unfold geocodeRoute, checkApiKey.
  rewrite upstreamFailed_spec.
  destruct (hasApiKey apiKey); [|simpl; naive_solver].
  unfold geocodeHandler, tryOr.
  destruct upstream as [response|e]; [|simpl; naive_solver].
  simpl. unfold readJson.
  destruct (ok response) eqn:Hok, (body response) as [e|text [data|]] eqn:Hbody;
    simpl; rewrite ?Hbody; simpl;
    repeat split; try done; try naive_solver.
  all: try (intros (_ & ? & ? & [= <-] & ? & ?); rewrite ?Hbody in *; congruence).
  all: try (intros (_ & ? & ? & ? & [= <-] & ? & ?); congruence).
  all: try (exists response, data; by rewrite Hbody).
  all: intros ? [= <-]; exists response; by rewrite Hbody.
Qed.



End RouteFacts.

(** ** The page against the proxy *)

Section EndToEnd.
Import Server Routes.
Variable LocalTZA : Z -> Z.
Variable toLowerCase : string -> string.
Variable now : Z.

(** X20. When the page's weather request is answered by the weather
    route, the page always gets a response it can read, and whenever the
    route could not obtain the data the search shows the proxy's own
    message: the missing-key text without a key, "Could not find weather
    data for <city>" for an upstream non-success status with a readable
    body, "Failed to fetch weather data" for every other upstream
    failure; the page's own fallback texts are never shown.  When the
    route did obtain the data, the page receives exactly that data. *)
Theorem weather_search_against_proxy (apiKey : option string) (city : string)
    (upstream : Outcome (UpstreamResponse CurrentWeather))
    (net : Network) (s : Dashboard) :
  ∃ response,
    deliver (fun data => data) (weatherRoute apiKey city upstream) = Some response
    ∧ (weatherFetch net = Normal response →
       let s' := (searchWeather LocalTZA toLowerCase now net city s).2 in
       (hasApiKey apiKey = false →
        currentPanel s'
        = ErrorPanel "OpenWeatherMap API key is not set on the server")
       ∧ (hasApiKey apiKey = true →
          ∀ upstreamResponse,
            upstream = Normal upstreamResponse →
            ok upstreamResponse = false →
            (∃ text parsed, body upstreamResponse = Body text parsed) →
            currentPanel s'
            = ErrorPanel ("Could not find weather data for " ++ city))
       ∧ (hasApiKey apiKey = true →
          (∃ e, upstream = Throw e)
          ∨ (∃ upstreamResponse e,
               upstream = Normal upstreamResponse
               ∧ (body upstreamResponse = Unreadable e
                  ∨ ok upstreamResponse = true
                    ∧ readJson upstreamResponse = Throw e)) →
          currentPanel s' = ErrorPanel "Failed to fetch weather data")
       ∧ (hasApiKey apiKey = true →
          ∀ upstreamResponse data,
            upstream = Normal upstreamResponse →
            ok upstreamResponse = true →
            readJson upstreamResponse = Normal data →
            settledJson (weatherFetch net) = Some data)).
Proof.
  assert (Herr : ∀ text net0,
    weatherFetch net0
    = Normal (ResponseNotOk (Normal {| ed_message := Some text |})) →
    text ≠ "" →
    currentPanel (searchWeather LocalTZA toLowerCase now net0 city s).2
    = ErrorPanel text).
  { intros text net0 Hnet Htext.
    unfold searchWeather, searchWeatherTry, tryCatch, fetchCurrentWeather.
    cbv [mbind Eff_bind showLoading modify fetch await throw].
    rewrite Hnet. cbn [orString ed_message message currentPanel snd].
    destruct (decide (text = "")) as [Hempty|_]; [done|].
    by rewrite decide_False by done. }
  unfold weatherRoute, checkApiKey, deliver.
  destruct (hasApiKey apiKey) eqn:Hkey; cycle 1.
  { simpl. eexists. split; [done|]. intros Hnet. simpl.
    split_and!; try done. intros _. by apply Herr. }
  unfold weatherHandler, tryOr, readText, readJson, ok.
  destruct upstream as [[status [e|text [data|]]]|e]; simpl;
    try destruct (bool_decide (200 ≤ status ≤ 299)) eqn:Hok; simpl;
    (eexists; split; [done|]; intros Hnet; simpl; split_and!; intros;
     repeat (destruct_or?; destruct_and?;
             try match goal with H : ∃ _, _ |- _ => destruct H end);
     simplify_eq; simpl in *; simplify_eq;
     try congruence; try (by apply Herr); try (by rewrite Hnet)).
Qed.

(** X21. When the health request is answered by the health route, the
    page stays in live mode exactly when the server has a key: with a
    key the dashboard is left as it is, without one demo mode is run
    (once, provided it completes). *)
Theorem health_check_against_proxy (enableDemoMode : Eff unit)
    (apiKey : option string) (timestamp : string) (uptime : Q) (s : Dashboard) :
  (enableDemoMode s).1 = Normal tt →
  ∃ response,
    deliver healthOfBody (healthRoute apiKey timestamp uptime) = Some response
    ∧ checkServerHealth enableDemoMode (Normal response) s
      = if hasApiKey apiKey then (Normal tt, s) else enableDemoMode s.
Proof.
  intros Hdemo. eexists. split; [reflexivity|].
  unfold checkServerHealth, tryCatch.
  cbv [mbind Eff_bind await mret Eff_ret healthOfBody hb_hasApiKey
       health_hasApiKey].
  destruct (hasApiKey apiKey); simpl; [done|].
  by destruct (enableDemoMode s) as [[[]|e] s'].
Qed.

(** X22. When the page asks the config route for the key with none held,
    it sends one request and ends up holding exactly the server's key if
    the server has one, and nothing otherwise. *)
Theorem map_key_against_proxy (key : option string) (n : nat) :
  let r := getApiKey (Normal (deliverConfig (configRoute key)))
             {| apiKey := None; configRequests := n |} in
  configRequests r.2 = S n
  ∧ apiKey r.2 = r.1
  ∧ (hasApiKey key = true → r.1 = key)
  ∧ (hasApiKey key = false → r.1 = None).
Proof.
  unfold getApiKey, deliverConfig, configRoute, hasApiKey. simpl.
  destruct key as [text|]; [|done].
  destruct (decide (text = "")) as [->|Hne]; simpl; [done|].
  by rewrite bool_decide_eq_true_2.
Qed.


End EndToEnd.

Lemma health_check_against_proxy_witness :
  searchHistory
    (checkServerHealth (addToSearchHistory Samples.asciiToLowerCase "London")
       (Normal (ResponseOk (Normal {| health_hasApiKey := false |})))
       (newDashboard None)).2
  = ["London"].
Proof.
  destruct (health_check_against_proxy
              (addToSearchHistory Samples.asciiToLowerCase "London")
              None "2023-11-14T22:13:20.000Z" 12 (newDashboard None) eq_refl)
    as (response & Hdeliver & Hcheck).
  injection Hdeliver as <-. unfold healthOfBody in Hcheck. simpl in Hcheck.
  by rewrite Hcheck.
Defined.

(** ** Tile columns and rows *)

Section TileBounds.
Import TileMapper.
Local Open Scope R_scope.



End TileBounds.
